(** * Fine-tuning notebook [Dinov2/dinov2_lightning.ipynb]

    A shallow embedding of the two classes of the notebook,
    [CustomNYUDataset] and [DPTLightningModule], of [collate_fn], and of
    the trainer configuration, together with the properties stated about
    them.

    Python objects are modelled by records, dictionaries with string keys
    by [gmap string _], exceptions by the [Result] type, and methods that
    touch [self] by the state-and-exception monad [Py].  Tensor scalars are
    float32 values; they are kept abstract (class [Float32]) and only their
    arrangement (shape, order of the data) is modelled. *)

From stdpp Require Import gmap strings list fin_maps.
From Stdlib Require Import ZArith.

(* ===================================================================== *)
(** * Part I: the program                                                 *)
(* ===================================================================== *)

(** ** Python prelude: exceptions, indexing, slices, dictionaries *)

Inductive PyError :=
| IndexError
| KeyError (key : string)
| RuntimeError
| ValueError.

Inductive Result (A : Type) :=
| Ok (a : A)
| Raise (e : PyError).
Arguments Ok {A} a.
Arguments Raise {A} e.

#[global] Instance Result_ret : MRet Result := @Ok.
#[global] Instance Result_bind : MBind Result :=
  fun A B f m => match m with Ok a => f a | Raise e => Raise e end.

Definition is_Ok {A} (r : Result A) : Prop := ∃ a, r = Ok a.

(** [seq[i]] for a Python sequence and a Python integer: a negative index
    counts from the end, anything outside [-len, len) raises IndexError. *)
Definition py_index {A} (l : list A) (i : Z) : Result A :=
  let n := Z.of_nat (length l) in
  let j := if (i <? 0)%Z then (n + i)%Z else i in
  if ((0 <=? j)%Z && (j <? n)%Z)%bool then
    match l !! Z.to_nat j with
    | Some x => Ok x
    | None => Raise IndexError
    end
  else Raise IndexError.

(** [seq[start:]]: the start is clamped to [0, len]. *)
Definition py_slice_from {A} (start : Z) (l : list A) : list A :=
  let n := Z.of_nat (length l) in
  let s := if (start <? 0)%Z then Z.max 0 (n + start) else Z.min start n in
  drop (Z.to_nat s) l.

(** [d[key]] for a dictionary. *)
Definition dict_getitem {V} (d : gmap string V) (key : string) : Result V :=
  match d !! key with
  | Some v => Ok v
  | None => Raise (KeyError key)
  end.

(** A method body: reads and writes the attributes [S] of [self], and
    returns or raises. *)
Definition Py (S A : Type) : Type := S → Result A * S.

#[global] Instance Py_ret {S} : MRet (Py S) := fun A a s => (Ok a, s).
#[global] Instance Py_bind {S} : MBind (Py S) :=
  fun A B f m s =>
    match m s with
    | (Ok a, s') => f a s'
    | (Raise e, s') => (Raise e, s')
    end.

Definition getattr {S A} (field : S → A) : Py S A := fun s => (Ok (field s), s).
Definition setattr {S} (update : S → S) : Py S unit := fun s => (Ok tt, update s).
Definition lift {S A} (r : Result A) : Py S A := fun s => (r, s).

(** ** Tensors and the library functions the notebook calls *)

Record Tensor (F : Type) := mkTensor {
  shape : list nat;
  data : list F;
}.
Arguments mkTensor {F} shape data.
Arguments shape {F} _.
Arguments data {F} _.

(** float32 arithmetic, as far as the loss and the early-stopping
    comparison need it. *)
Class Float32 (F : Type) := {
  fsub : F → F → F;
  fmul : F → F → F;
  fmean : list F → F;
  flt : F → F → bool;
}.

(** A two-dimensional numpy array, row major. *)
Record ndarray (P : Type) := mkArray {
  nd_rows : nat;
  nd_cols : nat;
  nd_data : list P;
}.
Arguments mkArray {P} nd_rows nd_cols nd_data.
Arguments nd_rows {P} _.
Arguments nd_cols {P} _.
Arguments nd_data {P} _.

Module Image.
(** [PIL.Image.Image]; [size] is (width, height). *)
Record Image (P : Type) := mk {
  size : nat * nat;
  getdata : list P;
}.
Arguments mk {P} size getdata.
Arguments size {P} _.
Arguments getdata {P} _.

Definition fromarray {P} (a : ndarray P) : Image P :=
  mk (nd_cols a, nd_rows a) (nd_data a).

(** [img.resize((width, height), resample)]: a new image of the
    requested size, its samples computed by the resampling filter. *)
Definition resize {P} (resample : nat * nat → Image P → Result (list P))
    (img : Image P) (wh : nat * nat) : Result (Image P) :=
  px ← resample wh img;
  Ok (mk wh px).
End Image.

Module np.
(** [np.array(img)] of a single-band image: shape (height, width). *)
Definition array {P} (img : Image.Image P) : ndarray P :=
  mkArray (snd (Image.size img)) (fst (Image.size img)) (Image.getdata img).
End np.

(** [torchvision.transforms.Resize(size)(img)] with [size] a pair
    (h, w): a PIL image is resized to PIL size (w, h). *)
Definition Resize {P} (resample : nat * nat → Image.Image P → Result (list P))
    (size : nat * nat) (img : Image.Image P) : Result (Image.Image P) :=
  Image.resize resample img (snd size, fst size).

(** [torch.nn.Parameter]: the tensor, the flag [requires_grad] and the
    gradient slot [grad] ([None] until a backward pass fills it). *)
Record Param (F : Type) := mkParameter {
  param_data : Tensor F;
  requires_grad : bool;
  grad : option (Tensor F);
}.
Arguments mkParameter {F} param_data requires_grad grad.
Arguments param_data {F} _.
Arguments requires_grad {F} _.
Arguments grad {F} _.

Module torch.
(** [torch.tensor(a, dtype=torch.float32)]. *)
Definition tensor {P F} (float32 : P → F) (a : ndarray P) : Tensor F :=
  mkTensor [nd_rows a; nd_cols a] (float32 <$> nd_data a).

(** [t.squeeze()]: every dimension of size 1 is removed. *)
Definition squeeze {F} (t : Tensor F) : Tensor F :=
  mkTensor (filter (λ d, d ≠ 1) (shape t)) (data t).

(** [torch.stack(tensors)] along a new leading dimension: the list must
    be non-empty and its tensors of one shape. *)
Definition stack {F} (tensors : list (Tensor F)) : Result (Tensor F) :=
  match tensors with
  | [] => Raise RuntimeError
  | t :: rest =>
      if forallb (λ u, bool_decide (shape u = shape t)) rest
      then Ok (mkTensor (length tensors :: shape t) (concat (data <$> tensors)))
      else Raise RuntimeError
  end.

Module optim.
(** The moment estimates Adam keeps per parameter. *)
Record AdamState (F : Type) := mkAdamState {
  step_count : nat;
  exp_avg : Tensor F;
  exp_avg_sq : Tensor F;
}.
Arguments mkAdamState {F} step_count exp_avg exp_avg_sq.

(** An optimizer instance: the parameters it was built over (by
    identity) and its per-parameter state. *)
Record Optimizer (F : Type) := mkOptimizer {
  param_groups : list positive;
  state : gmap positive (AdamState F);
}.
Arguments mkOptimizer {F} param_groups state.
Arguments param_groups {F} _.
Arguments state {F} _.

(** [torch.optim.Adam(params)]: an empty parameter list is refused. *)
Definition Adam {F} (params : list positive) : Result (Optimizer F) :=
  match params with
  | [] => Raise ValueError
  | _ => Ok (mkOptimizer params ∅)
  end.

(** Modelled from the spec: [optimizer.step()], which is code of the
    tensor library.  A parameter of the list whose gradient slot is empty
    is skipped; the others are rewritten by the Adam rule, kept abstract
    as [adam_update]. *)
Definition step {F}
    (adam_update : option (AdamState F) → Tensor F → Tensor F
                   → Tensor F * AdamState F)
    (opt : Optimizer F) (store : gmap positive (Param F))
    : gmap positive (Param F) * Optimizer F :=
  let '(store', state') :=
    foldl (λ (acc : gmap positive (Param F) * gmap positive (AdamState F)) p,
             match acc.1 !! p with
             | Some prm =>
                 match grad prm with
                 | Some g =>
                     let '(w, a) := adam_update (acc.2 !! p) (param_data prm) g in
                     (<[p := mkParameter w (requires_grad prm) (grad prm)]> acc.1,
                      <[p := a]> acc.2)
                 | None => acc
                 end
             | None => acc
             end)
          (store, state opt) (param_groups opt) in
  (store', mkOptimizer (param_groups opt) state').
End optim.

Module nn.
Module functional.
(** [mse_loss(input, target)] with the default reduction, the mean.
    When the shapes differ the library broadcasts or raises;
    [broadcast] stands for that path. *)
Definition mse_loss {F} {F32 : Float32 F}
    (broadcast : Tensor F → Tensor F → Result F)
    (input target : Tensor F) : Result F :=
  if bool_decide (shape input = shape target)
  then Ok (fmean (zip_with (λ x y, fmul (fsub x y) (fsub x y))
                           (data input) (data target)))
  else broadcast input target.
End functional.
End nn.
End torch.

(** ** [CustomNYUDataset] *)

(** A column value of the underlying dataset: already a PIL image, or an
    array still to be converted. *)
Inductive Column (P : Type) :=
| AsImage (img : Image.Image P)
| AsArray (a : ndarray P).
Arguments AsImage {P} img.
Arguments AsArray {P} a.

(** One row of the underlying dataset, [item['image']] and
    [item['depth_map']]. *)
Record Row (Px D : Type) := mkRow {
  image : Column Px;
  depth_map : Column D;
}.
Arguments mkRow {Px D} image depth_map.
Arguments image {Px D} _.
Arguments depth_map {Px D} _.

(** [Image.fromarray(x) if not isinstance(x, Image.Image) else x].  The
    arrays of the model are the two-dimensional grids that PIL accepts;
    an array that [Image.fromarray] refuses (TypeError) is outside the
    type [ndarray], so the conversion has no failure case here. *)
Definition to_PIL {P} (x : Column P) : Image.Image P :=
  match x with
  | AsArray a => Image.fromarray a
  | AsImage img => img
  end.

Module CustomNYUDataset.
Section CustomNYUDataset.
(** [Px]: an RGB pixel; [D]: a raw depth sample; [F]: float32. *)
Context {Px D F : Type}.
(** The resampling filter of PIL and the numpy-to-float32 conversion. *)
Context (resample : nat * nat → Image.Image D → Result (list D)).
Context (float32 : D → F).

Record self := mk {
  dataset : list (Row Px D);
  processor : list (Image.Image Px) → Result (gmap string (Tensor F));
  output_size : nat * nat;
}.

Definition __init__ (dataset : list (Row Px D))
    (processor : list (Image.Image Px) → Result (gmap string (Tensor F)))
    (output_size : nat * nat) : self :=
  mk dataset processor output_size.

Definition __len__ : Py self nat :=
  ds ← getattr dataset;
  mret (length ds).

Definition __getitem__ (idx : Z) : Py self (gmap string (Tensor F)) :=
  ds ← getattr dataset;
  item ← lift (py_index ds idx);
  let image := to_PIL (image item) in
  let depth_map := to_PIL (depth_map item) in
  processor ← getattr processor;
  processed_images ← lift (processor [image]);
  pixel_values ← lift (dict_getitem processed_images "pixel_values");
  let input_tensor := torch.squeeze pixel_values in
  depth_map_resized ← lift (Resize resample (576, 736) depth_map);
  let depth_map_tensor := torch.tensor float32 (np.array depth_map_resized) in
  mret ({[ "pixel_values" := input_tensor; "labels" := depth_map_tensor ]}
          : gmap string (Tensor F)).

(** The value [__getitem__] returns or the exception it raises, as a
    function of the attributes. *)
Definition getitem_result (s : self) (idx : Z) : Result (gmap string (Tensor F)) :=
  item ← py_index (dataset s) idx;
  processed_images ← processor s [to_PIL (image item)];
  pixel_values ← dict_getitem processed_images "pixel_values";
  depth_map_resized ← Resize resample (576, 736) (to_PIL (depth_map item));
  Ok ({[ "pixel_values" := torch.squeeze pixel_values;
         "labels" := torch.tensor float32 (np.array depth_map_resized) ]}
        : gmap string (Tensor F)).

(** The external image processor and the resampling filter succeed on a
    row. *)
Definition collaborators_succeed (s : self) (item : Row Px D) : Prop :=
  (∃ processed pv, processor s [to_PIL (image item)] = Ok processed
                   ∧ processed !! "pixel_values" = Some pv)
  ∧ is_Ok (resample (736, 576) (to_PIL (depth_map item))).
End CustomNYUDataset.
Arguments self : clear implicits.
End CustomNYUDataset.

(** ** [collate_fn] *)

Definition collate_fn {F} (batch : list (gmap string (Tensor F)))
    : Result (gmap string (Tensor F)) :=
  pixel_values ← mapM (λ item, dict_getitem item "pixel_values") batch;
  labels ← mapM (λ item, dict_getitem item "labels") batch;
  pixel_values ← torch.stack pixel_values;
  labels ← torch.stack labels;
  Ok ({[ "pixel_values" := pixel_values; "labels" := labels ]}
        : gmap string (Tensor F)).

(** A per-example mapping with a 'pixel_values' field [pv] and a 'labels'
    field [lb]. *)
Definition has_fields {F} (item : gmap string (Tensor F)) (pv lb : Tensor F) : Prop :=
  item !! "pixel_values" = Some pv ∧ item !! "labels" = Some lb.

(** ** The pretrained model *)

(** Parameters are objects with identity: a module refers to its
    parameters by their address in the store [gmap positive Param], so
    that a flag written through one path is seen through every other. *)
Record Dinov2Encoder := mkEncoder {
  layer : list (list positive);
}.

Record Dinov2Backbone := mkBackbone {
  embeddings : list positive;
  encoder : Dinov2Encoder;
  layernorm : list positive;
}.

Record DPTForDepthEstimation := mkDPT {
  backbone : Dinov2Backbone;
  neck : list positive;
  head : list positive;
}.

(** The traversal behind [Module.parameters()]: a parameter is yielded
    the first time it is met and remembered in [memo], and skipped when
    it is met again. *)
Fixpoint yield_unseen (memo : list positive) (params : list positive)
    : list positive :=
  match params with
  | [] => []
  | p :: params' =>
      if bool_decide (p ∈ memo) then yield_unseen memo params'
      else p :: yield_unseen (p :: memo) params'
  end.

(** [model.parameters()]: every parameter of every submodule, in the
    order of the submodules, a shared parameter once, where it first
    occurs. *)
Definition parameters (m : DPTForDepthEstimation) : list positive :=
  yield_unseen []
    (embeddings (backbone m) ++ mjoin (layer (encoder (backbone m)))
       ++ layernorm (backbone m) ++ neck m ++ head m).

(** [p] is a parameter of one of the last two encoder layers: of layer
    number [i], counted from 0, with fewer than two layers after it. *)
Definition in_last_two_layers (m : DPTForDepthEstimation) (p : positive) : Prop :=
  ∃ i lay, layer (encoder (backbone m)) !! i = Some lay
           ∧ length (layer (encoder (backbone m))) ≤ i + 2
           ∧ p ∈ lay.

(** [param.requires_grad = b] *)
Definition set_requires_grad {F} (b : bool)
    (store : gmap positive (Param F)) (param : positive)
    : gmap positive (Param F) :=
  alter (λ p, mkParameter (param_data p) b (grad p)) param store.

(** ** [DPTLightningModule] *)

(** The hook from which [self.log] is called. *)
Inductive Hook := training_step_hook | validation_step_hook.

#[global] Instance Hook_eq_dec : EqDecision Hook.
Proof. solve_decision. Defined.

(** One call of [self.log(name, value, on_step=..., on_epoch=...)];
    an argument left out is [None]. *)
Record LogCall (F : Type) := mkLogCall {
  log_hook : Hook;
  log_name : string;
  log_value : F;
  log_on_step : option bool;
  log_on_epoch : option bool;
}.
Arguments mkLogCall {F} log_hook log_name log_value log_on_step log_on_epoch.
Arguments log_hook {F} _.
Arguments log_name {F} _.
Arguments log_value {F} _.
Arguments log_on_step {F} _.
Arguments log_on_epoch {F} _.

(** Modelled from the spec: how the logging sink, which is code of the
    training framework, treats an argument left out.  A value logged from
    [training_step] is reported per step and not aggregated; one logged
    from [validation_step] is aggregated over the epoch and not reported
    per step. *)
Definition reported_on_step {F} (c : LogCall F) : bool :=
  default (bool_decide (log_hook c = training_step_hook)) (log_on_step c).

(** Modelled from the spec: see [reported_on_step]. *)
Definition reported_on_epoch {F} (c : LogCall F) : bool :=
  default (bool_decide (log_hook c ≠ training_step_hook)) (log_on_epoch c).

Module DPTLightningModule.
Section DPTLightningModule.
Context {F : Type} {F32 : Float32 F}.
(** The model hub: the architecture and the weights stored under a
    checkpoint name. *)
Context (checkpoint :
  string → Result (DPTForDepthEstimation * gmap positive (Tensor F))).
(** The network function, [model(x).predicted_depth]. *)
Context (predicted_depth :
  DPTForDepthEstimation → gmap positive (Tensor F) → Tensor F → Result (Tensor F)).
(** What [mse_loss] does with tensors of different shapes. *)
Context (broadcast : Tensor F → Tensor F → Result F).

Record self := mk {
  model : DPTForDepthEstimation;
  store : gmap positive (Param F);
  logged : list (LogCall F);
}.

(** [DPTForDepthEstimation.from_pretrained(name)]: freshly built
    parameters require gradients and have none yet. *)
Definition from_pretrained (name : string)
    : Result (DPTForDepthEstimation * gmap positive (Param F)) :=
  match checkpoint name with
  | Ok (m, weights) => Ok (m, (λ w, mkParameter w true None) <$> weights)
  | Raise e => Raise e
  end.

Definition __init__ : Result self :=
  '(model, store) ← from_pretrained "facebook/dpt-dinov2-small-kitti";
  (* Freeze all parameters of the model initially *)
  let store := foldl (set_requires_grad false) store (parameters model) in
  (* Unfreeze the last two transformer layers *)
  let store :=
    foldl (λ store layer, foldl (set_requires_grad true) store layer)
          store (py_slice_from (-2) (layer (encoder (backbone model)))) in
  (* Unfreeze the head of the model *)
  let store := foldl (set_requires_grad true) store (head model) in
  Ok (mk model store []).

Definition forward (x : Tensor F) : Py self (Tensor F) :=
  m ← getattr model;
  ps ← getattr store;
  lift (predicted_depth m (param_data <$> ps) x).

Definition common_step (batch : gmap string (Tensor F)) (batch_idx : nat)
    : Py self F :=
  pixel_values ← lift (dict_getitem batch "pixel_values");
  labels ← lift (dict_getitem batch "labels");
  preds ← forward pixel_values;
  loss ← lift (torch.nn.functional.mse_loss broadcast preds labels);
  mret loss.

(** [self.parameters()]: the wrapper has one submodule, [self.model]. *)
Definition self_parameters : Py self (list positive) :=
  m ← getattr model;
  mret (parameters m).

Definition configure_optimizers : Py self (torch.optim.Optimizer F) :=
  params ← self_parameters;
  lift (torch.optim.Adam params).

(** [self.log(name, value, on_epoch=...)] called from hook [fx]. *)
Definition log (fx : Hook) (name : string) (value : F)
    (on_epoch : option bool) : Py self unit :=
  setattr (λ s, mk (model s) (store s)
                   (logged s ++ [mkLogCall fx name value None on_epoch])).

Definition training_step (batch : gmap string (Tensor F)) (batch_idx : nat)
    : Py self F :=
  loss ← common_step batch batch_idx;
  log training_step_hook "training_loss" loss None;;
  mret loss.

Definition validation_step (batch : gmap string (Tensor F)) (batch_idx : nat)
    : Py self F :=
  loss ← common_step batch batch_idx;
  log validation_step_hook "validation_loss" loss (Some true);;
  mret loss.

(** The loss [common_step] returns or the exception it raises, as a
    function of the attributes. *)
Definition common_step_result (s : self) (batch : gmap string (Tensor F))
    : Result F :=
  pixel_values ← dict_getitem batch "pixel_values";
  labels ← dict_getitem batch "labels";
  preds ← predicted_depth (model s) (param_data <$> store s) pixel_values;
  torch.nn.functional.mse_loss broadcast preds labels.

(** The object after [self.log] has recorded one more call. *)
Definition with_logged (s : self) (c : LogCall F) : self :=
  mk (model s) (store s) (logged s ++ [c]).
End DPTLightningModule.
Arguments self : clear implicits.
End DPTLightningModule.

(** ** The external trainer *)

Module pl.
Inductive Mode := mode_min | mode_max.

(** The arguments of [EarlyStopping(...)] the notebook sets. *)
Record EarlyStopping := mkEarlyStopping {
  monitor : string;
  patience : nat;
  strict : bool;
  verbose : bool;
  mode : Mode;
}.

(** The arguments of [Trainer(...)] that bear on the epoch loop. *)
Record Trainer := mkTrainer {
  max_epochs : nat;
  callbacks : list EarlyStopping;
}.

(** What the callback remembers between epochs. *)
Record StoppingState (F : Type) := mkStoppingState {
  best_score : option F;
  wait_count : nat;
}.
Arguments mkStoppingState {F} best_score wait_count.
Arguments best_score {F} _.
Arguments wait_count {F} _.

(** How the loop ended. *)
Inductive Outcome :=
| EarlyStopped (epochs_run : nat)
| MaxEpochsReached (epochs_run : nat).

Section pl.
Context {F : Type} {F32 : Float32 F}.

(** Modelled from the spec: when a value of the metric counts as an
    improvement on the best one so far (strictly smaller in mode min,
    strictly larger in mode max; the first value always does). *)
Definition improved (m : Mode) (current : F) (best : option F) : bool :=
  match best with
  | None => true
  | Some b => match m with mode_min => flt current b | mode_max => flt b current end
  end.

(** Modelled from the spec: the early-stopping check, which is code of the
    training framework and not of the notebook.  Once per epoch the
    monitored metric is compared with the best value seen; an improvement
    resets the count of epochs without improvement, anything else
    increments it, and the loop is asked to stop when the count reaches
    [patience].  The spec names the non-strict mode, the one the notebook
    selects; what sets it apart is the case of a metric that was not
    logged, an error in strict mode and passed over otherwise. *)
Definition on_validation_end (cb : EarlyStopping) (st : StoppingState F)
    (metrics : gmap string F) : Result (StoppingState F * bool) :=
  match metrics !! monitor cb with
  | None => if strict cb then Raise RuntimeError else Ok (st, false)
  | Some current =>
      if improved (mode cb) current (best_score st)
      then Ok (mkStoppingState (Some current) 0, false)
      else
        let w := S (wait_count st) in
        Ok (mkStoppingState (best_score st) w, bool_decide (patience cb ≤ w))
  end.

(** Modelled from the spec: every callback is consulted, and the loop is
    asked to stop when one of them says so. *)
Fixpoint run_callbacks (cbs : list (EarlyStopping * StoppingState F))
    (metrics : gmap string F)
    : Result (list (EarlyStopping * StoppingState F) * bool) :=
  match cbs with
  | [] => Ok ([], false)
  | (cb, st) :: rest =>
      match on_validation_end cb st metrics with
      | Raise e => Raise e
      | Ok (st', stop) =>
          match run_callbacks rest metrics with
          | Raise e => Raise e
          | Ok (rest', stop') => Ok ((cb, st') :: rest', stop || stop')
          end
      end
  end.

(** Modelled from the spec: the epoch loop of [trainer.fit], reduced to
    what decides when it ends.  [metrics epoch] are the values aggregated
    over epoch number [epoch]; the loop runs at most [remaining] more
    epochs and ends early when a callback asks for it. *)
Fixpoint fit_loop (cbs : list (EarlyStopping * StoppingState F))
    (metrics : nat → gmap string F) (epoch remaining : nat) : Result Outcome :=
  match remaining with
  | 0 => Ok (MaxEpochsReached epoch)
  | S remaining' =>
      match run_callbacks cbs (metrics epoch) with
      | Raise e => Raise e
      | Ok (cbs', stop) =>
          if stop then Ok (EarlyStopped (S epoch))
          else fit_loop cbs' metrics (S epoch) remaining'
      end
  end.

(** Modelled from the spec: [trainer.fit], from the first epoch, each
    callback in its initial state. *)
Definition fit (t : Trainer) (metrics : nat → gmap string F) : Result Outcome :=
  fit_loop ((λ cb, (cb, mkStoppingState None 0)) <$> callbacks t)
           metrics 0 (max_epochs t).

(** The best value of the monitored metric over the epochs before epoch
    [k]. *)
Fixpoint best_before (cb : EarlyStopping) (metrics : nat → gmap string F)
    (k : nat) : option F :=
  match k with
  | 0 => None
  | S j =>
      match metrics j !! monitor cb with
      | Some c =>
          if improved (mode cb) c (best_before cb metrics j)
          then Some c else best_before cb metrics j
      | None => best_before cb metrics j
      end
  end.

(** In epoch [k] the monitored metric was logged and did not improve on
    the best value of the epochs before. *)
Definition fails_to_improve (cb : EarlyStopping)
    (metrics : nat → gmap string F) (k : nat) : bool :=
  match metrics k !! monitor cb with
  | Some c => negb (improved (mode cb) c (best_before cb metrics k))
  | None => false
  end.

(** The [patience cb] epochs that end with epoch [n - 1] all failed to
    improve the metric. *)
Definition stale_window (cb : EarlyStopping)
    (metrics : nat → gmap string F) (n : nat) : Prop :=
  patience cb ≤ n
  ∧ ∀ k, n - patience cb ≤ k < n → fails_to_improve cb metrics k = true.

(** The number of checks without improvement since the last improvement,
    after [k] epochs. *)
Fixpoint stale_run (cb : EarlyStopping) (metrics : nat → gmap string F)
    (k : nat) : nat :=
  match k with
  | 0 => 0
  | S j =>
      match metrics j !! monitor cb with
      | Some c =>
          if improved (mode cb) c (best_before cb metrics j)
          then 0 else S (stale_run cb metrics j)
      | None => stale_run cb metrics j
      end
  end.

(** The check made at the end of the [n]-th epoch asks the loop to stop. *)
Definition stop_requested (cb : EarlyStopping)
    (metrics : nat → gmap string F) (n : nat) : bool :=
  match n with
  | 0 => false
  | S e => fails_to_improve cb metrics e
           && bool_decide (patience cb ≤ stale_run cb metrics (S e))
  end.

(** Modelled from the spec: the backward pass the trainer runs after
    [training_step].  Gradients are computed for, and stored in, the
    parameters that require them; the others are left as they are. *)
Definition backward (gradient : positive → Tensor F)
    (store : gmap positive (Param F)) : gmap positive (Param F) :=
  map_imap (λ p prm,
              Some (if requires_grad prm
                    then mkParameter (param_data prm) true (Some (gradient p))
                    else prm))
           store.

Context (predicted_depth :
  DPTForDepthEstimation → gmap positive (Tensor F) → Tensor F → Result (Tensor F)).
Context (broadcast : Tensor F → Tensor F → Result F).
(** Automatic differentiation: the gradient of the loss of a batch with
    respect to one parameter. *)
Context (autograd :
  DPTForDepthEstimation → gmap positive (Tensor F) → gmap string (Tensor F)
  → positive → Tensor F).
Context (adam_update :
  option (torch.optim.AdamState F) → Tensor F → Tensor F
  → Tensor F * torch.optim.AdamState F).

(** Modelled from the spec: one training iteration, forward and loss
    ([training_step]), backward, optimizer step. *)
Definition training_iteration (opt : torch.optim.Optimizer F)
    (batch : gmap string (Tensor F)) (batch_idx : nat)
    : Py (DPTLightningModule.self F) (torch.optim.Optimizer F) :=
  loss ← DPTLightningModule.training_step predicted_depth broadcast batch batch_idx;
  m ← getattr DPTLightningModule.model;
  ps ← getattr DPTLightningModule.store;
  let ps := backward (autograd m (param_data <$> ps) batch) ps in
  let '(ps, opt) := torch.optim.step adam_update opt ps in
  setattr (λ s, DPTLightningModule.mk (DPTLightningModule.model s) ps
                                      (DPTLightningModule.logged s));;
  mret opt.

(** Modelled from the spec: the training iterations over the batches of
    a data loader, one after the other. *)
Fixpoint training_loop (opt : torch.optim.Optimizer F)
    (batches : list (gmap string (Tensor F))) (batch_idx : nat)
    : Py (DPTLightningModule.self F) (torch.optim.Optimizer F) :=
  match batches with
  | [] => mret opt
  | batch :: rest =>
      opt ← training_iteration opt batch batch_idx;
      training_loop opt rest (S batch_idx)
  end.
End pl.
End pl.

(** ** The notebook's top-level values *)

(** [model_output_size = (544, 736)] *)
Definition model_output_size : nat * nat := (544, 736).

(** [train_dataset = CustomNYUDataset(train_data_slice, processor,
    model_output_size)] *)
Definition train_dataset {Px D F} (train_data_slice : list (Row Px D))
    (processor : list (Image.Image Px) → Result (gmap string (Tensor F)))
    : CustomNYUDataset.self Px D F :=
  CustomNYUDataset.__init__ train_data_slice processor model_output_size.

(** [EarlyStopping(monitor='validation_loss', patience=5, strict=False,
    verbose=False, mode='min')] *)
Definition early_stop_callback : pl.EarlyStopping :=
  pl.mkEarlyStopping "validation_loss" 5 false false pl.mode_min.

(** [Trainer(max_epochs=5, accelerator=device_type,
    callbacks=[early_stop_callback])] *)
Definition trainer : pl.Trainer :=
  pl.mkTrainer 5 [early_stop_callback].

(** [val_dataset = CustomNYUDataset(validation_data_slice, processor,
    model_output_size)] *)
Definition val_dataset {Px D F} (validation_data_slice : list (Row Px D))
    (processor : list (Image.Image Px) → Result (gmap string (Tensor F)))
    : CustomNYUDataset.self Px D F :=
  CustomNYUDataset.__init__ validation_data_slice processor model_output_size.

(** [batch_size = 2] *)
Definition batch_size : nat := 2.

(** [eval_batch_size = batch_size] *)
Definition eval_batch_size : nat := batch_size.

(** ** Data loading *)

(** [range(n)] *)
Definition py_range (n : nat) : list Z := Z.of_nat <$> seq 0 n.

(** The batch sampler of [DataLoader(..., batch_size=batch_size)]: the
    indices of the sampler are gathered in order, a batch is handed out
    as soon as it is full, and what is left at the end is handed out as
    a last, shorter batch. *)
Fixpoint batch_sampler (batch_size : nat) (sampler : list Z) (batch : list Z)
    : list (list Z) :=
  match sampler with
  | [] => if bool_decide (0 < length batch) then [batch] else []
  | idx :: sampler' =>
      if bool_decide (length (batch ++ [idx]) = batch_size)
      then (batch ++ [idx]) :: batch_sampler batch_size sampler' []
      else batch_sampler batch_size sampler' (batch ++ [idx])
  end.

Section DataLoader.
Context {Px D F : Type}.
Context (resample : nat * nat → Image.Image D → Result (list D)).
Context (float32 : D → F).

(** How the loader builds one batch:
    [collate_fn([dataset[idx] for idx in indices])]. *)
Definition fetch (indices : list Z)
    : Py (CustomNYUDataset.self Px D F) (gmap string (Tensor F)) :=
  data ← mapM (CustomNYUDataset.__getitem__ resample float32) indices;
  lift (collate_fn data).

(** [DataLoader(dataset, shuffle=shuffle, collate_fn=collate_fn,
    batch_size=batch_size)] and one pass over it.  The construction
    refuses an empty dataset when it is to shuffle (the random sampler
    wants a positive number of samples) and a batch size of 0, in this
    order, with ValueError.  Without shuffling the indices are
    [range(len(dataset))], with shuffling they come in the order
    [shuffled] drawn by the loader. *)
Definition DataLoader_iter (shuffle : bool) (batch_size : nat)
    (shuffled : list Z)
    : Py (CustomNYUDataset.self Px D F) (list (gmap string (Tensor F))) :=
  n ← CustomNYUDataset.__len__;
  if shuffle && bool_decide (n = 0) then lift (Raise ValueError)
  else if bool_decide (batch_size = 0) then lift (Raise ValueError)
  else
    let sampler := if shuffle then shuffled else py_range n in
    mapM fetch (batch_sampler batch_size sampler []).

(** The loop of the inspection cell,
    [image = train_data_slice[i]['image']; ...;
     image_sizes.add(image.size)] for each [i]. *)
Fixpoint add_image_sizes (train_data_slice : list (Row Px D))
    (indices : list Z) (image_sizes : gset (nat * nat))
    : Result (gset (nat * nat)) :=
  match indices with
  | [] => Ok image_sizes
  | i :: indices' =>
      item ← py_index train_data_slice i;
      let image := to_PIL (image item) in
      add_image_sizes train_data_slice indices'
                      (image_sizes ∪ {[ Image.size image ]})
  end.

(** The inspection cell: the size of the first image, then the set of
    sizes over [range(min(len(train_data_slice), 100))]. *)
Definition inspect_image_dimensions (train_data_slice : list (Row Px D))
    : Result ((nat * nat) * gset (nat * nat)) :=
  item ← py_index train_data_slice 0;
  let first_image := to_PIL (image item) in
  image_sizes ← add_image_sizes train_data_slice
                  (py_range (length train_data_slice `min` 100)) ∅;
  Ok (Image.size first_image, image_sizes).
End DataLoader.

(** The index [idx] of a sequence of length [n], counted from the front. *)
Definition normalised_index (n : nat) (idx : Z) : nat :=
  Z.to_nat (if (idx <? 0)%Z then Z.of_nat n + idx else idx)%Z.

(** ** Concrete collaborators

    Small stand-ins for the external pieces (scalars, resampling filter,
    image processor, rows of the dataset), on which the definitions above
    can be run. *)

Module Sample.
#[global] Instance Z_float32 : Float32 Z := {|
  fsub := Z.sub;
  fmul := Z.mul;
  fmean := λ l, (foldr Z.add 0 l / Z.of_nat (length l))%Z;
  flt := Z.ltb;
|}.

(** A filter that fills the requested size with the first sample. *)
Definition resample (wh : nat * nat) (img : Image.Image Z) : Result (list Z) :=
  Ok (replicate (wh.1 * wh.2) (default 0%Z (hd_error (Image.getdata img)))).

(** A processor that returns a 1 x 3 x 2 x 2 batch whatever the image. *)
Definition processor (images : list (Image.Image Z))
    : Result (gmap string (Tensor Z)) :=
  Ok {[ "pixel_values" := mkTensor [1; 3; 2; 2] (replicate 12 0%Z) ]}.

(** A row whose image and depth map are 640 x 480 arrays. *)
Definition row : Row Z Z :=
  mkRow (AsArray (mkArray 480 640 (replicate (480 * 640) 7%Z)))
        (AsArray (mkArray 480 640 (replicate (480 * 640) 3%Z))).

Definition example (n : Z) : gmap string (Tensor Z) :=
  {[ "pixel_values" := mkTensor [3; 2; 2] (replicate 12 n);
     "labels" := mkTensor [2; 2] (replicate 4 n) ]}.

(** A small checkpoint: three encoder layers, nine parameters. *)
Definition dpt : DPTForDepthEstimation :=
  mkDPT (mkBackbone [1%positive] (mkEncoder [[2]; [3]; [4; 5]]%positive)
                    [6%positive])
        [7%positive] [8; 9]%positive.

Definition weights : gmap positive (Tensor Z) :=
  list_to_map ((λ p, (p, mkTensor [1] [Z.pos p])) <$> [1; 2; 3; 4; 5; 6; 7; 8; 9]%positive).

Definition checkpoint (name : string)
    : Result (DPTForDepthEstimation * gmap positive (Tensor Z)) :=
  Ok (dpt, weights).

(** A network that predicts the same 2 x 2 map for every input. *)
Definition predicted_depth (m : DPTForDepthEstimation)
    (w : gmap positive (Tensor Z)) (x : Tensor Z) : Result (Tensor Z) :=
  Ok (mkTensor [2; 2] [1; 2; 3; 4]%Z).

Definition broadcast (input target : Tensor Z) : Result Z := Raise RuntimeError.

Definition batch : gmap string (Tensor Z) :=
  {[ "pixel_values" := mkTensor [3; 2; 2] (replicate 12 0%Z);
     "labels" := mkTensor [2; 2] [1; 1; 1; 1]%Z ]}.

(** The wrapper as loaded, before any flag is written. *)
Definition module : DPTLightningModule.self Z :=
  DPTLightningModule.mk dpt ((λ w, mkParameter w true None) <$> weights) [].

Definition autograd (m : DPTForDepthEstimation) (w : gmap positive (Tensor Z))
    (batch : gmap string (Tensor Z)) (p : positive) : Tensor Z :=
  mkTensor [1] [1%Z].

(** Plain gradient descent in place of the Adam rule. *)
Definition adam_update (st : option (torch.optim.AdamState Z))
    (w g : Tensor Z) : Tensor Z * torch.optim.AdamState Z :=
  (mkTensor (shape w) (zip_with Z.sub (data w) (data g)),
   torch.optim.mkAdamState 1 g g).

(** A dataset object over one row, and one over three. *)
Definition dataset1 : CustomNYUDataset.self Z Z Z :=
  CustomNYUDataset.__init__ [row] processor (544, 736).

Definition dataset3 : CustomNYUDataset.self Z Z Z :=
  CustomNYUDataset.__init__ [row; row; row] processor (544, 736).

(** A row whose columns are PIL images already, a processor and a filter
    that fail, and the dataset object over them. *)
Definition pil_row : Row Z Z :=
  mkRow (AsImage (Image.mk (2, 2) [7; 7; 7; 7]%Z))
        (AsImage (Image.mk (2, 2) [3; 3; 3; 3]%Z)).

Definition failing_processor (images : list (Image.Image Z))
    : Result (gmap string (Tensor Z)) :=
  Raise ValueError.

Definition failing_resample (wh : nat * nat) (img : Image.Image Z)
    : Result (list Z) :=
  Raise RuntimeError.

Definition dataset_failing : CustomNYUDataset.self Z Z Z :=
  CustomNYUDataset.__init__ [pil_row] failing_processor (544, 736).

(** A validation loss that never changes. *)
Definition flat_metrics (epoch : nat) : gmap string Z :=
  {[ "validation_loss" := 1%Z ]}.
End Sample.

(* ===================================================================== *)
(** * Part II: properties                                                 *)
(* ===================================================================== *)

(** Runs the monadic plumbing of a method body on the current state. *)
Ltac py_run :=
  repeat (unfold mbind, mret, Py_bind, Py_ret, Result_bind, Result_ret,
                 lift, getattr, setattr; simpl).

(** ** Python indexing *)

Lemma py_index_nonneg {A} (l : list A) (i : Z) :
  (0 ≤ i < Z.of_nat (length l))%Z →
  ∃ x, l !! Z.to_nat i = Some x ∧ py_index l i = Ok x.
Proof.
  intros Hi. unfold py_index.
  destruct (Z.ltb_spec i 0); [lia|].
  destruct (Z.leb_spec 0 i); [|lia].
  destruct (Z.ltb_spec i (Z.of_nat (length l))); [|lia]. simpl.
  destruct (lookup_lt_is_Some_2 l (Z.to_nat i)) as [x Hx]; [lia|].
  exists x. by rewrite Hx.
Qed.

Lemma py_index_negative {A} (l : list A) (i : Z) :
  (- Z.of_nat (length l) ≤ i < 0)%Z →
  py_index l i = py_index l (Z.of_nat (length l) + i).
Proof.
  intros Hi. unfold py_index.
  destruct (Z.ltb_spec i 0); [|lia].
  destruct (Z.ltb_spec (Z.of_nat (length l) + i) 0); [lia|]. done.
Qed.

Lemma py_index_out_of_range {A} (l : list A) (i : Z) :
  (i < - Z.of_nat (length l) ∨ Z.of_nat (length l) ≤ i)%Z →
  py_index l i = Raise IndexError.
Proof.
  intros Hi. unfold py_index.
  destruct (Z.ltb_spec i 0).
  - destruct (Z.leb_spec 0 (Z.of_nat (length l) + i)); [lia|]. done.
  - destruct (Z.ltb_spec i (Z.of_nat (length l))); [lia|].
    by rewrite andb_false_r.
Qed.

Example py_index_from_the_end :
  py_index [10; 20; 30] (-1) = Ok 30
  ∧ py_index [10; 20; 30] (-3) = Ok 10
  ∧ py_index [10; 20; 30] (-4) = Raise IndexError
  ∧ py_index [10; 20; 30] 3 = Raise IndexError.
Proof. by split_and!. Qed.

Example py_slice_last_two_of_three :
  py_slice_from (-2) [1; 2; 3] = [2; 3] ∧ py_slice_from (-2) [1] = [1].
Proof. by split. Qed.

(** ** [CustomNYUDataset] *)

Section CustomNYUDataset_facts.
Context {Px D F : Type}.
Context (resample : nat * nat → Image.Image D → Result (list D)).
Context (float32 : D → F).
Implicit Types (s : CustomNYUDataset.self Px D F) (idx : Z).

Lemma getitem_run s idx :
  CustomNYUDataset.__getitem__ resample float32 idx s
  = (CustomNYUDataset.getitem_result resample float32 s idx, s).
Proof.
  unfold CustomNYUDataset.__getitem__, CustomNYUDataset.getitem_result.
  py_run.
  destruct (py_index _ idx) as [item|e]; py_run; [|done].
  destruct (CustomNYUDataset.processor s _) as [processed|e]; py_run; [|done].
  destruct (dict_getitem processed _) as [pv|e]; py_run; [|done].
  destruct (Resize _ _ _) as [resized|e]; py_run; done.
Qed.

Lemma Resize_size (img out : Image.Image D) (h w : nat) :
  Resize resample (h, w) img = Ok out → Image.size out = (w, h).
Proof.
  unfold Resize, Image.resize. py_run.
  destruct (resample _ _) as [px|e]; py_run; [|done].
  by intros [= <-].
Qed.

Lemma getitem_result_labels s idx ex :
  CustomNYUDataset.getitem_result resample float32 s idx = Ok ex →
  ∃ t, ex !! "labels" = Some t ∧ shape t = [576; 736].
Proof.
  unfold CustomNYUDataset.getitem_result. py_run.
  destruct (py_index _ idx) as [item|e]; py_run; [|done].
  destruct (CustomNYUDataset.processor s _) as [processed|e]; py_run; [|done].
  destruct (dict_getitem processed _) as [pv|e]; py_run; [|done].
  destruct (Resize _ _ _) as [resized|e] eqn:Hr; py_run; [|done].
  intros [= <-]. apply Resize_size in Hr.
  eexists. split; [by simplify_map_eq|].
  unfold torch.tensor, np.array. simpl. by rewrite Hr.
Qed.

Lemma getitem_result_in_range s idx item :
  (0 ≤ idx)%Z →
  CustomNYUDataset.dataset s !! Z.to_nat idx = Some item →
  CustomNYUDataset.collaborators_succeed resample s item →
  is_Ok (CustomNYUDataset.getitem_result resample float32 s idx).
Proof.
  intros Hidx Hitem [(processed & pv & Hproc & Hpv) [px Hpx]].
  destruct (py_index_nonneg (CustomNYUDataset.dataset s) idx) as (x & Hx & Hpy).
  { split; [done|]. apply lookup_lt_Some in Hitem. lia. }
  assert (x = item) as -> by congruence.
  unfold CustomNYUDataset.getitem_result. rewrite Hpy. py_run.
  rewrite Hproc. py_run. unfold dict_getitem. rewrite Hpv. py_run.
  unfold Resize, Image.resize. py_run. rewrite Hpx. py_run.
  by eexists.
Qed.

(** C4: whatever [output_size] was passed at construction, it is read
    neither by [__len__] nor by [__getitem__] (both return the same for any
    two values of it), and the 'labels' tensor [__getitem__] returns has
    shape (576, 736), the constant written in the call of [Resize]; the
    call does return for an index in range on which the image processor
    and the resampling filter succeed. *)
Theorem getitem_labels_shape_is_hard_coded
    (dataset : list (Row Px D))
    (processor : list (Image.Image Px) → Result (gmap string (Tensor F)))
    (output_size output_size' : nat * nat) idx :
  (CustomNYUDataset.__getitem__ resample float32 idx
     (CustomNYUDataset.__init__ dataset processor output_size)).1
  = (CustomNYUDataset.__getitem__ resample float32 idx
       (CustomNYUDataset.__init__ dataset processor output_size')).1
  ∧ (CustomNYUDataset.__len__
       (CustomNYUDataset.__init__ dataset processor output_size)).1
    = (CustomNYUDataset.__len__
         (CustomNYUDataset.__init__ dataset processor output_size')).1
  ∧ (∀ ex,
       (CustomNYUDataset.__getitem__ resample float32 idx
          (CustomNYUDataset.__init__ dataset processor output_size)).1 = Ok ex →
       ∃ t, ex !! "labels" = Some t ∧ shape t = [576; 736])
  ∧ (∀ item,
       (0 ≤ idx)%Z → dataset !! Z.to_nat idx = Some item →
       CustomNYUDataset.collaborators_succeed resample
         (CustomNYUDataset.__init__ dataset processor output_size) item →
       is_Ok (CustomNYUDataset.__getitem__ resample float32 idx
                (CustomNYUDataset.__init__ dataset processor output_size)).1).
Proof.
  rewrite !getitem_run. simpl. repeat split.
  - intros ex Hex. by eapply getitem_result_labels.
  - intros item Hidx Hitem Hok. by eapply getitem_result_in_range.
Qed.

(** C9, as amended: an index below [-len] or from [len] on makes the
    lookup in the underlying dataset raise IndexError, and [__getitem__]
    ends with whatever exception that lookup raises, the object untouched
    and nothing retried; an index in [0, len) on whose row the image
    processor and the resampling filter succeed returns an example; an
    index in [-len, 0) is not an error but counts from the end. *)
Theorem getitem_index_errors_propagate s idx :
  (∀ e, py_index (CustomNYUDataset.dataset s) idx = Raise e →
        CustomNYUDataset.__getitem__ resample float32 idx s = (Raise e, s))
  ∧ ((idx < - Z.of_nat (length (CustomNYUDataset.dataset s))
      ∨ Z.of_nat (length (CustomNYUDataset.dataset s)) ≤ idx)%Z →
     CustomNYUDataset.__getitem__ resample float32 idx s = (Raise IndexError, s))
  ∧ ((0 ≤ idx < Z.of_nat (length (CustomNYUDataset.dataset s)))%Z →
     ∃ item, CustomNYUDataset.dataset s !! Z.to_nat idx = Some item
       ∧ (CustomNYUDataset.collaborators_succeed resample s item →
          ∃ ex, CustomNYUDataset.__getitem__ resample float32 idx s = (Ok ex, s)))
  ∧ ((- Z.of_nat (length (CustomNYUDataset.dataset s)) ≤ idx < 0)%Z →
     CustomNYUDataset.__getitem__ resample float32 idx s
     = CustomNYUDataset.__getitem__ resample float32
         (Z.of_nat (length (CustomNYUDataset.dataset s)) + idx) s).
Proof.
  rewrite !getitem_run. repeat split.
  - intros e He. unfold CustomNYUDataset.getitem_result. rewrite He. done.
  - intros Hout. unfold CustomNYUDataset.getitem_result.
    by rewrite py_index_out_of_range.
  - intros Hin.
    destruct (py_index_nonneg (CustomNYUDataset.dataset s) idx Hin)
      as (item & Hitem & _).
    exists item. split; [done|]. intros Hok.
    destruct (getitem_result_in_range s idx item) as [ex Hex]; [lia|done..|].
    exists ex. by rewrite Hex.
  - intros Hneg. unfold CustomNYUDataset.getitem_result.
    by rewrite py_index_negative.
Qed.
End CustomNYUDataset_facts.

Lemma sample_row_succeeds (s : CustomNYUDataset.self Z Z Z) :
  CustomNYUDataset.processor s = Sample.processor →
  CustomNYUDataset.collaborators_succeed Sample.resample s Sample.row.
Proof.
  intros Hp. split.
  - rewrite Hp. do 2 eexists. split; [done|]. done.
  - by eexists.
Qed.

(** C1, at the notebook's own arguments: the dataset is constructed with
    the target size (544, 736), index 0 is in range, the call returns, and
    the 'labels' tensor has shape (576, 736), not the configured one. *)
Theorem labels_shape_differs_from_configured :
  ∃ ex t,
    (CustomNYUDataset.__getitem__ Sample.resample id 0
       (train_dataset [Sample.row] Sample.processor)).1 = Ok ex
    ∧ ex !! "labels" = Some t
    ∧ shape t = [576; 736]
    ∧ shape t ≠ [(CustomNYUDataset.output_size
                    (train_dataset [Sample.row] Sample.processor)).1;
                 (CustomNYUDataset.output_size
                    (train_dataset [Sample.row] Sample.processor)).2].
Proof.
  destruct (getitem_result_in_range Sample.resample id
              (train_dataset [Sample.row] Sample.processor) 0 Sample.row)
    as [ex Hex]; [done|done|by apply sample_row_succeeds|].
  destruct (getitem_result_labels _ _ _ _ _ Hex) as (t & Ht & Hshape).
  exists ex, t. rewrite getitem_run. split_and!; [done..|].
  rewrite Hshape. simpl. discriminate.
Qed.

(** C9 as stated fails: -1 lies outside [0, 1), yet on a dataset of one
    row [__getitem__(-1)] returns an example (the last row). *)
Lemma getitem_negative_index_succeeds :
  ¬ (0 ≤ -1 < Z.of_nat (length [Sample.row]))%Z
  ∧ ∃ ex,
      CustomNYUDataset.__getitem__ Sample.resample id (-1)
        (CustomNYUDataset.__init__ [Sample.row] Sample.processor (544, 736))
      = (Ok ex, CustomNYUDataset.__init__ [Sample.row] Sample.processor (544, 736)).
Proof.
  split; [lia|].
  destruct (getitem_result_in_range Sample.resample id
              (CustomNYUDataset.__init__ [Sample.row] Sample.processor (544, 736))
              0 Sample.row) as [ex Hex];
    [done|done|by apply sample_row_succeeds|].
  exists ex. rewrite getitem_run. f_equal. rewrite <- Hex.
  unfold CustomNYUDataset.getitem_result.
  by rewrite py_index_negative by (simpl; lia).
Qed.

(** ** [collate_fn] *)

Section collate_fn_facts.
Context {F : Type}.
Implicit Types (batch : list (gmap string (Tensor F))) (t : Tensor F).

(** The 'key' fields of a batch, where present. *)
Lemma mapM_dict_getitem batch (key : string) (ts : list (Tensor F)) :
  Forall2 (λ item t, item !! key = Some t) batch ts →
  mapM (λ item, dict_getitem item key) batch = Ok ts.
Proof.
  induction 1 as [|item t batch ts Hitem _ IH]; [done|].
  change (mapM (λ item, dict_getitem item key) (item :: batch))
    with (dict_getitem item key ≫= λ x,
          mapM (λ item, dict_getitem item key) batch ≫= λ xs, mret (x :: xs)).
  rewrite IH. unfold dict_getitem. by rewrite Hitem.
Qed.

Lemma stack_uniform (ts : list (Tensor F)) (sh : list nat) :
  ts ≠ [] → Forall (λ t, shape t = sh) ts →
  torch.stack ts = Ok (mkTensor (length ts :: sh) (concat (data <$> ts))).
Proof.
  destruct ts as [|t rest]; [done|]. intros _ Hall.
  apply Forall_cons in Hall as [Ht Hrest]. unfold torch.stack.
  replace (forallb _ rest) with true; [by rewrite Ht|].
  symmetry. apply forallb_forall. intros u Hu.
  apply bool_decide_eq_true. rewrite Ht.
  by eapply Forall_forall in Hrest; [|by apply list_elem_of_In].
Qed.

Lemma fields_present batch (key : string) (sh : list nat) :
  Forall (λ item, ∃ t, item !! key = Some t ∧ shape t = sh) batch →
  Forall2 (λ item t, item !! key = Some t) batch (omap (.!! key) batch)
  ∧ Forall (λ t, shape t = sh) (omap (.!! key) batch)
  ∧ length (omap (.!! key) batch) = length batch.
Proof.
  induction 1 as [|item batch (t & Ht & Hsh) _ (IH1 & IH2 & IH3)]; [done|].
  simpl. rewrite Ht. simpl. split_and!; [by constructor..|by f_equal].
Qed.

(** C7, as amended: for a non-empty list of per-example mappings whose
    'pixel_values' fields all have shape [sp] and whose 'labels' fields all
    have shape [sl], [collate_fn] returns a mapping with exactly the keys
    'pixel_values' and 'labels'; each batch tensor is built from its own
    field alone, its data the items' data in order, its shape the list
    length followed by the per-item shape. *)
Theorem collate_fn_stacks_each_field batch (sp sl : list nat) :
  batch ≠ [] →
  Forall (λ item, ∃ pv lb, has_fields item pv lb
                           ∧ shape pv = sp ∧ shape lb = sl) batch →
  ∃ pvs lbs,
    collate_fn batch = Ok {[ "pixel_values" := pvs; "labels" := lbs ]}
    ∧ dom ({[ "pixel_values" := pvs; "labels" := lbs ]} : gmap string (Tensor F))
      = {[ "pixel_values"; "labels" ]}
    ∧ shape pvs = length batch :: sp
    ∧ shape lbs = length batch :: sl
    ∧ data pvs = concat (data <$> omap (.!! "pixel_values") batch)
    ∧ data lbs = concat (data <$> omap (.!! "labels") batch).
Proof.
  intros Hne Hall.
  destruct (fields_present batch "pixel_values" sp) as (Hp1 & Hp2 & Hp3).
  { eapply Forall_impl; [done|]. intros item (pv & lb & [? ?] & ? & ?). eauto. }
  destruct (fields_present batch "labels" sl) as (Hl1 & Hl2 & Hl3).
  { eapply Forall_impl; [done|]. intros item (pv & lb & [? ?] & ? & ?). eauto. }
  eexists _, _. split.
  - unfold collate_fn.
    rewrite (mapM_dict_getitem _ _ _ Hp1), (mapM_dict_getitem _ _ _ Hl1).
    py_run.
    rewrite (stack_uniform _ sp), (stack_uniform _ sl); py_run; try done.
    + intros Hnil. apply (f_equal length) in Hnil. rewrite Hl3 in Hnil.
      by destruct batch.
    + intros Hnil. apply (f_equal length) in Hnil. rewrite Hp3 in Hnil.
      by destruct batch.
  - simpl. rewrite Hp3, Hl3. by split_and!.
Qed.
End collate_fn_facts.

(** Two examples of one per-item shape: the batch has leading dimension 2. *)
Lemma collate_fn_two_examples :
  [Sample.example 1; Sample.example 2] ≠ []
  ∧ Forall (λ item, ∃ pv lb, has_fields item pv lb
                             ∧ shape pv = [3; 2; 2] ∧ shape lb = [2; 2])
           [Sample.example 1; Sample.example 2]
  ∧ ∃ pvs lbs,
      collate_fn [Sample.example 1; Sample.example 2]
      = Ok {[ "pixel_values" := pvs; "labels" := lbs ]}
      ∧ shape pvs = [2; 3; 2; 2]
      ∧ shape lbs = [2; 2; 2].
Proof.
  assert (Forall (λ item : gmap string (Tensor Z),
                    ∃ pv lb, has_fields item pv lb
                             ∧ shape pv = [3; 2; 2] ∧ shape lb = [2; 2])
                 [Sample.example 1; Sample.example 2]) as Hall.
  { repeat constructor; eexists _, _; (split; [split; reflexivity|]);
      split; reflexivity. }
  split; [discriminate|]. split; [exact Hall|].
  destruct (collate_fn_stacks_each_field
              [Sample.example 1; Sample.example 2] [3; 2; 2] [2; 2])
    as (pvs & lbs & Hc & _ & Hp & Hl & _); [discriminate|exact Hall|].
  exists pvs, lbs. split; [exact Hc|]. split; [exact Hp|exact Hl].
Defined.

(** C7 as stated fails on the empty list: its fields vacuously share a
    shape, and [torch.stack] refuses it. *)
Lemma collate_fn_empty_list_raises :
  Forall (λ item : gmap string (Tensor Z),
            ∃ pv lb, has_fields item pv lb ∧ shape pv = [] ∧ shape lb = [])
         []
  ∧ collate_fn ([] : list (gmap string (Tensor Z))) = Raise RuntimeError.
Proof. split; [constructor|reflexivity]. Qed.

(** ** Slices and the parameter store *)

Lemma elem_of_yield_unseen (memo params : list positive) (p : positive) :
  p ∈ yield_unseen memo params ↔ p ∈ params ∧ p ∉ memo.
Proof.
  revert memo. induction params as [|q params IH]; intros memo; simpl.
  { split; [by intros ?%not_elem_of_nil|by intros [?%not_elem_of_nil _]]. }
  case_bool_decide as Hq.
  - rewrite IH, elem_of_cons. split; [tauto|].
    intros [[->|?] ?]; [done|tauto].
  - rewrite !elem_of_cons, IH, elem_of_cons. split.
    + intros [->|[? ?]]; [tauto|]. tauto.
    + intros [[->|?] ?]; [tauto|].
      destruct (decide (p = q)) as [->|]; tauto.
Qed.

Lemma elem_of_yield_unseen_nil (params : list positive) (p : positive) :
  p ∈ yield_unseen [] params ↔ p ∈ params.
Proof.
  rewrite elem_of_yield_unseen. split; [by intros [? _]|].
  intros ?. split; [done|apply not_elem_of_nil].
Qed.

Lemma NoDup_yield_unseen (memo params : list positive) :
  NoDup (yield_unseen memo params).
Proof.
  revert memo. induction params as [|q params IH]; intros memo; simpl.
  { constructor. }
  case_bool_decide; [done|]. constructor; [|done].
  rewrite elem_of_yield_unseen, elem_of_cons. tauto.
Qed.

Lemma py_slice_last_two {A} (l : list A) :
  py_slice_from (-2) l = drop (length l - 2) l.
Proof. unfold py_slice_from. simpl. f_equal. lia. Qed.

Lemma elem_of_join_drop {A} (ls : list (list A)) (k : nat) (x : A) :
  x ∈ mjoin (drop k ls) ↔ ∃ i l, ls !! i = Some l ∧ k ≤ i ∧ x ∈ l.
Proof.
  rewrite list_elem_of_join. split.
  - intros (l & Hx & Hl). apply list_elem_of_lookup in Hl as [j Hj].
    rewrite lookup_drop in Hj. exists (k + j), l. split_and!; [done|lia|done].
  - intros (i & l & Hi & Hk & Hx). exists l. split; [done|].
    apply list_elem_of_lookup. exists (i - k). rewrite lookup_drop.
    by replace (k + (i - k)) with i by lia.
Qed.

Section store_facts.
Context {F : Type}.
Implicit Types (store : gmap positive (Param F)) (p q : positive).

Lemma lookup_foldl_set_requires_grad (b : bool) (ps : list positive) store p :
  foldl (set_requires_grad b) store ps !! p
  = if bool_decide (p ∈ ps)
    then (λ prm, mkParameter (param_data prm) b (grad prm)) <$> store !! p
    else store !! p.
Proof.
  induction ps as [|q ps IH] using rev_ind.
  { by rewrite bool_decide_eq_false_2 by apply not_elem_of_nil. }
  rewrite foldl_app. simpl. unfold set_requires_grad at 1.
  rewrite lookup_alter. destruct (decide (q = p)) as [->|Hne].
  - rewrite IH, (bool_decide_eq_true_2 (p ∈ ps ++ [p])).
    + case_bool_decide; [|done]. by destruct (store !! p).
    + apply elem_of_app. right. by apply list_elem_of_singleton.
  - rewrite IH, (bool_decide_ext (p ∈ ps ++ [q]) (p ∈ ps)); [done|].
    rewrite elem_of_app, list_elem_of_singleton. intuition congruence.
Qed.
End store_facts.

Lemma foldl_join {A B} (f : A → B → A) (ls : list (list B)) (a : A) :
  foldl (λ a l, foldl f a l) a ls = foldl f a (mjoin ls).
Proof.
  revert a. induction ls as [|l ls IH]; intros a; [done|].
  simpl. by rewrite foldl_app, IH.
Qed.

(** ** [DPTLightningModule] *)

Section DPTLightningModule_facts.
Context {F : Type} {F32 : Float32 F}.
Context (checkpoint :
  string → Result (DPTForDepthEstimation * gmap positive (Tensor F))).
Context (predicted_depth :
  DPTForDepthEstimation → gmap positive (Tensor F) → Tensor F → Result (Tensor F)).
Context (broadcast : Tensor F → Tensor F → Result F).
Implicit Types (s : DPTLightningModule.self F) (p : positive).
Implicit Types (batch : gmap string (Tensor F)) (x : Tensor F).

(** The store [__init__] leaves behind: the loaded weights, no gradients,
    and a flag that depends on where the parameter sits in the model. *)
Lemma init_store s :
  DPTLightningModule.__init__ checkpoint = Ok s →
  ∃ weights,
    checkpoint "facebook/dpt-dinov2-small-kitti"
    = Ok (DPTLightningModule.model s, weights)
    ∧ DPTLightningModule.logged s = []
    ∧ ∀ p,
        DPTLightningModule.store s !! p
        = (λ w, mkParameter w
                  (bool_decide (p ∈ head (DPTLightningModule.model s))
                   || bool_decide
                        (p ∈ mjoin (py_slice_from (-2)
                               (layer (encoder (backbone
                                  (DPTLightningModule.model s))))))
                   || negb (bool_decide
                              (p ∈ parameters (DPTLightningModule.model s))))
                  None)
          <$> weights !! p.
Proof.
  unfold DPTLightningModule.__init__, DPTLightningModule.from_pretrained.
  destruct (checkpoint _) as [[m weights]|e]; py_run; [|done].
  intros [= <-]. simpl. exists weights. split_and!; [done..|].
  intros p. rewrite foldl_join, !lookup_foldl_set_requires_grad, lookup_fmap.
  destruct (weights !! p) as [w|]; simpl; [|by repeat case_bool_decide].
  by repeat case_bool_decide.
Qed.

Lemma forward_run x s :
  DPTLightningModule.forward predicted_depth x s
  = (predicted_depth (DPTLightningModule.model s)
       (param_data <$> DPTLightningModule.store s) x, s).
Proof. done. Qed.

Lemma common_step_run batch (batch_idx : nat) s :
  DPTLightningModule.common_step predicted_depth broadcast batch batch_idx s
  = (DPTLightningModule.common_step_result predicted_depth broadcast s batch, s).
Proof.
  unfold DPTLightningModule.common_step,
    DPTLightningModule.common_step_result, DPTLightningModule.forward.
  py_run.
  destruct (dict_getitem batch "pixel_values") as [pv|e]; py_run; [|done].
  destruct (dict_getitem batch "labels") as [lb|e]; py_run; [|done].
  destruct (predicted_depth _ _ pv) as [preds|e]; py_run; [|done].
  by destruct (torch.nn.functional.mse_loss _ _ _).
Qed.

Lemma training_step_run batch (batch_idx : nat) s :
  DPTLightningModule.training_step predicted_depth broadcast batch batch_idx s
  = match DPTLightningModule.common_step_result predicted_depth broadcast s batch with
    | Ok loss =>
        (Ok loss,
         DPTLightningModule.with_logged s
           (mkLogCall training_step_hook "training_loss" loss None None))
    | Raise e => (Raise e, s)
    end.
Proof.
  unfold DPTLightningModule.training_step. py_run.
  rewrite common_step_run.
  by destruct (DPTLightningModule.common_step_result _ _ _ _).
Qed.

Lemma validation_step_run batch (batch_idx : nat) s :
  DPTLightningModule.validation_step predicted_depth broadcast batch batch_idx s
  = match DPTLightningModule.common_step_result predicted_depth broadcast s batch with
    | Ok loss =>
        (Ok loss,
         DPTLightningModule.with_logged s
           (mkLogCall validation_step_hook "validation_loss" loss None (Some true)))
    | Raise e => (Raise e, s)
    end.
Proof.
  unfold DPTLightningModule.validation_step. py_run.
  rewrite common_step_run.
  by destruct (DPTLightningModule.common_step_result _ _ _ _).
Qed.

Lemma configure_optimizers_run s :
  DPTLightningModule.configure_optimizers s
  = (torch.optim.Adam (parameters (DPTLightningModule.model s)), s).
Proof. done. Qed.

(** The flag the constructor computes for a parameter of the model, in
    the words of the partition. *)
Lemma init_flag_partition (m : DPTForDepthEstimation) p :
  p ∈ parameters m →
  bool_decide (p ∈ head m)
  || bool_decide (p ∈ mjoin (py_slice_from (-2) (layer (encoder (backbone m)))))
  || negb (bool_decide (p ∈ parameters m)) = true
  ↔ in_last_two_layers m p ∨ p ∈ head m.
Proof.
  intros Hp. rewrite (bool_decide_eq_true_2 (p ∈ parameters m)) by done.
  rewrite orb_false_r, orb_true_iff, !bool_decide_eq_true.
  rewrite py_slice_last_two, elem_of_join_drop. unfold in_last_two_layers.
  split.
  - intros [Hh|(i & lay & ? & ? & ?)]; [by right|].
    left. exists i, lay. split_and!; [done|lia|done].
  - intros [(i & lay & ? & ? & ?)|Hh]; [|by left].
    right. exists i, lay. split_and!; [done|lia|done].
Qed.

(** C2: when the hub delivers the checkpoint, construction succeeds and
    the wrapper holds the loaded model with a parameter store over the
    keys of the checkpoint; every parameter of the model that the
    checkpoint has a weight for is in the store with that weight, and it
    requires gradients exactly when it belongs to one of the last two
    encoder layers of the backbone or to the head; and [forward],
    [common_step], [training_step], [validation_step] and
    [configure_optimizers] leave the whole parameter store, flags
    included, as they find it, in whatever state they are called. *)
Theorem partition_set_once_and_kept (m : DPTForDepthEstimation)
    (weights : gmap positive (Tensor F)) :
  checkpoint "facebook/dpt-dinov2-small-kitti" = Ok (m, weights) →
  ∃ s,
    DPTLightningModule.__init__ checkpoint = Ok s
    ∧ DPTLightningModule.model s = m
    ∧ dom (DPTLightningModule.store s) = dom weights
    ∧ (∀ p w,
         p ∈ parameters m → weights !! p = Some w →
         ∃ prm,
           DPTLightningModule.store s !! p = Some prm
           ∧ param_data prm = w
           ∧ (requires_grad prm = true
              ↔ in_last_two_layers m p ∨ p ∈ head m))
    ∧ (∀ p prm,
         p ∈ parameters (DPTLightningModule.model s) →
         DPTLightningModule.store s !! p = Some prm →
         (requires_grad prm = true
          ↔ in_last_two_layers (DPTLightningModule.model s) p
            ∨ p ∈ head (DPTLightningModule.model s)))
    ∧ (∀ s' x batch (batch_idx : nat),
         DPTLightningModule.store
           (DPTLightningModule.forward predicted_depth x s').2
         = DPTLightningModule.store s'
         ∧ DPTLightningModule.store
             (DPTLightningModule.common_step predicted_depth broadcast
                batch batch_idx s').2
           = DPTLightningModule.store s'
         ∧ DPTLightningModule.store
             (DPTLightningModule.training_step predicted_depth broadcast
                batch batch_idx s').2
           = DPTLightningModule.store s'
         ∧ DPTLightningModule.store
             (DPTLightningModule.validation_step predicted_depth broadcast
                batch batch_idx s').2
           = DPTLightningModule.store s'
         ∧ DPTLightningModule.store
             (DPTLightningModule.configure_optimizers s').2
           = DPTLightningModule.store s').
Proof.
  intros Hload.
  assert (∃ s, DPTLightningModule.__init__ checkpoint = Ok s) as [s Hinit].
  { unfold DPTLightningModule.__init__, DPTLightningModule.from_pretrained.
    rewrite Hload. by eexists. }
  destruct (init_store s Hinit) as (weights' & Hload' & _ & Hstore).
  rewrite Hload in Hload'. injection Hload' as Hm <-.
  exists s. split_and!; [done|done| | | |].
  - apply set_eq. intros p. rewrite !elem_of_dom, Hstore.
    by rewrite fmap_is_Some.
  - intros p w Hp Hw. rewrite Hstore, Hw. simpl. eexists.
    split; [done|]. split; [done|]. simpl.
    rewrite <- Hm. by apply init_flag_partition.
  - intros p prm Hp Hprm. rewrite Hstore in Hprm.
    destruct (weights !! p) as [w|]; simplify_eq/=.
    by apply init_flag_partition.
  - intros s' x batch batch_idx.
    rewrite forward_run, common_step_run, training_step_run,
      validation_step_run, configure_optimizers_run.
    by destruct (DPTLightningModule.common_step_result _ _ _ _).
Qed.

(** C3: for a batch with fields 'pixel_values' and 'labels', when the
    model's prediction for the former has the shape of the latter,
    [common_step] returns the mean of the squared differences taken
    element by element between prediction and label, and leaves the
    wrapper unchanged. *)
Theorem common_step_mean_squared_error batch (batch_idx : nat) s
    (pixel_values labels preds : Tensor F) :
  batch !! "pixel_values" = Some pixel_values →
  batch !! "labels" = Some labels →
  (DPTLightningModule.forward predicted_depth pixel_values s).1 = Ok preds →
  shape preds = shape labels →
  ∃ sq : list F,
    DPTLightningModule.common_step predicted_depth broadcast batch batch_idx s
    = (Ok (fmean sq), s)
    ∧ length sq = length (data preds) `min` length (data labels)
    ∧ ∀ i a b,
        data preds !! i = Some a → data labels !! i = Some b →
        sq !! i = Some (fmul (fsub a b) (fsub a b)).
Proof.
  intros Hpv Hlb Hfw Hshape. rewrite forward_run in Hfw. simpl in Hfw.
  exists (zip_with (λ a b, fmul (fsub a b) (fsub a b)) (data preds) (data labels)).
  split_and!.
  - rewrite common_step_run. f_equal.
    unfold DPTLightningModule.common_step_result, dict_getitem.
    rewrite Hpv, Hlb. py_run. rewrite Hfw. py_run.
    unfold torch.nn.functional.mse_loss.
    by rewrite bool_decide_eq_true_2.
  - apply length_zip_with.
  - intros i a b Ha Hb. by rewrite lookup_zip_with, Ha, Hb.
Qed.

(** C8: [training_step] returns the loss [common_step] computes and
    records one call of [self.log] for it, named "training_loss" and
    reported per step; [validation_step] returns the same loss and records
    it under the name "validation_loss", aggregated over the epoch.  When
    [common_step] raises, so do both, and nothing is logged. *)
Theorem steps_log_and_return_loss batch (batch_idx : nat) s :
  DPTLightningModule.training_step predicted_depth broadcast batch batch_idx s
  = match (DPTLightningModule.common_step predicted_depth broadcast
             batch batch_idx s).1 with
    | Ok loss =>
        (Ok loss,
         DPTLightningModule.with_logged s
           (mkLogCall training_step_hook "training_loss" loss None None))
    | Raise e => (Raise e, s)
    end
  ∧ DPTLightningModule.validation_step predicted_depth broadcast batch batch_idx s
    = match (DPTLightningModule.common_step predicted_depth broadcast
               batch batch_idx s).1 with
      | Ok loss =>
          (Ok loss,
           DPTLightningModule.with_logged s
             (mkLogCall validation_step_hook "validation_loss" loss None (Some true)))
      | Raise e => (Raise e, s)
      end
  ∧ (DPTLightningModule.training_step predicted_depth broadcast
       batch batch_idx s).1
    = (DPTLightningModule.validation_step predicted_depth broadcast
         batch batch_idx s).1
  ∧ ∀ loss : F,
      reported_on_step
        (mkLogCall training_step_hook "training_loss" loss None None) = true
      ∧ reported_on_epoch
          (mkLogCall training_step_hook "training_loss" loss None None) = false
      ∧ reported_on_epoch
          (mkLogCall validation_step_hook "validation_loss" loss None (Some true))
        = true
      ∧ reported_on_step
          (mkLogCall validation_step_hook "validation_loss" loss None (Some true))
        = false.
Proof.
  rewrite training_step_run, validation_step_run, common_step_run. simpl.
  split_and!; try done.
  by destruct (DPTLightningModule.common_step_result _ _ _ _).
Qed.
End DPTLightningModule_facts.

(** ** The optimizer and the training iteration *)

Section training_facts.
Context {F : Type} {F32 : Float32 F}.
Context (predicted_depth :
  DPTForDepthEstimation → gmap positive (Tensor F) → Tensor F → Result (Tensor F)).
Context (broadcast : Tensor F → Tensor F → Result F).
Context (autograd :
  DPTForDepthEstimation → gmap positive (Tensor F) → gmap string (Tensor F)
  → positive → Tensor F).
Context (adam_update :
  option (torch.optim.AdamState F) → Tensor F → Tensor F
  → Tensor F * torch.optim.AdamState F).
Implicit Types (s : DPTLightningModule.self F) (p : positive).
Implicit Types (store : gmap positive (Param F)) (opt : torch.optim.Optimizer F).

Lemma lookup_backward (gradient : positive → Tensor F) store p :
  pl.backward gradient store !! p
  = (λ prm, if requires_grad prm
            then mkParameter (param_data prm) true (Some (gradient p))
            else prm) <$> store !! p.
Proof.
  unfold pl.backward. rewrite map_lookup_imap. by destruct (store !! p).
Qed.

(** A parameter without a gradient is not touched by the optimizer. *)
Lemma step_skips_without_grad opt store p :
  (∀ prm, store !! p = Some prm → grad prm = None) →
  (torch.optim.step adam_update opt store).1 !! p = store !! p.
Proof.
  intros Hnone. unfold torch.optim.step.
  set (body := λ (acc : gmap positive (Param F)
                        * gmap positive (torch.optim.AdamState F)) q, _).
  assert (∀ qs acc, acc.1 !! p = store !! p →
            (foldl body acc qs).1 !! p = store !! p) as Hfold.
  { induction qs as [|q qs IH]; intros acc Hacc; [done|].
    simpl. apply IH. unfold body.
    destruct (acc.1 !! q) as [prm|] eqn:Hq; [|done].
    destruct (grad prm) as [g|] eqn:Hg; [|done].
    destruct (adam_update _ _ _) as [w a]. simpl.
    destruct (decide (q = p)) as [->|Hne]; [|by rewrite lookup_insert_ne].
    rewrite Hacc in Hq. apply Hnone in Hq. congruence. }
  specialize (Hfold (torch.optim.param_groups opt)
                    (store, torch.optim.state opt) eq_refl).
  by destruct (foldl body _ _).
Qed.

(** One training iteration leaves alone a parameter that does not require
    gradients and has none. *)
Lemma training_iteration_frozen opt batch (batch_idx : nat) s p :
  (∀ prm, DPTLightningModule.store s !! p = Some prm →
          requires_grad prm = false ∧ grad prm = None) →
  DPTLightningModule.store
    (pl.training_iteration predicted_depth broadcast autograd adam_update
       opt batch batch_idx s).2 !! p
  = DPTLightningModule.store s !! p.
Proof.
  intros Hfrozen. unfold pl.training_iteration. py_run.
  rewrite training_step_run.
  destruct (DPTLightningModule.common_step_result _ _ _ _) as [loss|e];
    py_run; [|done].
  destruct (torch.optim.step _ _ _) as [ps opt'] eqn:Hstep. py_run.
  change ps with (ps, opt').1. rewrite <- Hstep.
  assert (pl.backward
            (autograd (DPTLightningModule.model s)
               (param_data <$> DPTLightningModule.store s) batch)
            (DPTLightningModule.store s) !! p
          = DPTLightningModule.store s !! p) as Hback.
  { rewrite lookup_backward.
    destruct (DPTLightningModule.store s !! p) as [prm|] eqn:Hp; [|done].
    destruct (Hfrozen prm eq_refl) as [Hflag _]. simpl. by rewrite Hflag. }
  rewrite step_skips_without_grad; [done|].
  intros prm. rewrite Hback. intros Hp. by apply Hfrozen.
Qed.

Lemma training_loop_frozen batches opt (batch_idx : nat) s p :
  (∀ prm, DPTLightningModule.store s !! p = Some prm →
          requires_grad prm = false ∧ grad prm = None) →
  DPTLightningModule.store
    (pl.training_loop predicted_depth broadcast autograd adam_update
       opt batches batch_idx s).2 !! p
  = DPTLightningModule.store s !! p.
Proof.
  revert opt batch_idx s.
  induction batches as [|batch batches IH]; intros opt batch_idx s Hfrozen;
    [done|].
  simpl. py_run.
  pose proof (training_iteration_frozen opt batch batch_idx s p Hfrozen) as Hit.
  destruct (pl.training_iteration _ _ _ _ _ _ _ s) as [[opt'|e] s1]; [|done].
  simpl in Hit. rewrite IH; [done|].
  intros prm. rewrite Hit. apply Hfrozen.
Qed.

Context (checkpoint :
  string → Result (DPTForDepthEstimation * gmap positive (Tensor F))).

(** C10: on the wrapper as constructed, [configure_optimizers] returns one
    Adam optimizer whose parameter list is the list of all parameters of
    the wrapper, the frozen ones ([requires_grad] false) included; a frozen
    parameter has no gradient, and however many training iterations
    (forward and loss, backward, optimizer step) are run with that
    optimizer, it keeps its value and still has no gradient. *)
Theorem optimizer_over_all_parameters s p prm :
  DPTLightningModule.__init__ checkpoint = Ok s →
  p ∈ parameters (DPTLightningModule.model s) →
  DPTLightningModule.store s !! p = Some prm →
  requires_grad prm = false →
  ∃ opt,
    DPTLightningModule.configure_optimizers s = (Ok opt, s)
    ∧ torch.optim.param_groups opt = parameters (DPTLightningModule.model s)
    ∧ p ∈ torch.optim.param_groups opt
    ∧ grad prm = None
    ∧ ∀ batches (batch_idx : nat),
        DPTLightningModule.store
          (pl.training_loop predicted_depth broadcast autograd adam_update
             opt batches batch_idx s).2 !! p
        = Some prm.
Proof.
  intros Hinit Hp Hprm Hflag.
  destruct (init_store checkpoint s Hinit) as (weights & _ & _ & Hstore).
  assert (grad prm = None) as Hgrad.
  { rewrite Hstore in Hprm. destruct (weights !! p); by simplify_eq/=. }
  rewrite configure_optimizers_run. unfold torch.optim.Adam.
  destruct (parameters (DPTLightningModule.model s)) as [|q qs] eqn:Hps.
  { by apply not_elem_of_nil in Hp. }
  eexists. split_and!; [done..|].
  intros batches batch_idx. rewrite training_loop_frozen; [done|].
  intros prm' Hprm'. by simplify_eq.
Qed.
End training_facts.

(** On the sample checkpoint (layers [2], [3], [4; 5], head [8; 9]) the
    constructor leaves parameters 3, 4, 5, 8 and 9 trainable. *)
Example flags_of_sample_checkpoint :
  ∃ s, DPTLightningModule.__init__ Sample.checkpoint = Ok s
       ∧ (λ p, requires_grad <$> DPTLightningModule.store s !! p)
           <$> [1; 2; 3; 4; 5; 6; 7; 8; 9]%positive
         = Some <$> [false; false; true; true; true; false; false; true; true].
Proof. eexists. split; reflexivity. Qed.

(** On the sample checkpoint construction succeeds; parameter 3, of the
    last but one encoder layer, is stored and requires gradients, and
    parameter 1, of the embeddings, is stored and does not. *)
Lemma partition_of_sample_checkpoint :
  Sample.checkpoint "facebook/dpt-dinov2-small-kitti"
  = Ok (Sample.dpt, Sample.weights)
  ∧ ∃ s, DPTLightningModule.__init__ Sample.checkpoint = Ok s
       ∧ (∃ prm, DPTLightningModule.store s !! 3%positive = Some prm
                 ∧ requires_grad prm = true)
       ∧ (∃ prm, DPTLightningModule.store s !! 1%positive = Some prm
                 ∧ requires_grad prm = false).
Proof.
  split; [reflexivity|].
  destruct (partition_set_once_and_kept Sample.checkpoint
              Sample.predicted_depth Sample.broadcast
              Sample.dpt Sample.weights eq_refl)
    as (s & Hinit & _ & _ & Hflags & _).
  exists s. split; [exact Hinit|].
  assert (∀ p : positive, p ∈ parameters Sample.dpt
            ↔ bool_decide (p ∈ parameters Sample.dpt) = true) as Hmem.
  { intros p. symmetry. apply bool_decide_eq_true. }
  split.
  - destruct (Hflags 3%positive (mkTensor [1] [3%Z]))
      as (prm & Hprm & _ & Hiff); [by apply Hmem|reflexivity|].
    exists prm. split; [exact Hprm|]. apply Hiff. left.
    exists 1, [3%positive]. split; [reflexivity|].
    split; [simpl; lia|]. apply list_elem_of_singleton. reflexivity.
  - destruct (Hflags 1%positive (mkTensor [1] [1%Z]))
      as (prm & Hprm & _ & Hiff); [by apply Hmem|reflexivity|].
    exists prm. split; [exact Hprm|].
    destruct (requires_grad prm); [|reflexivity].
    exfalso. destruct (proj1 Hiff eq_refl) as [(i & lay & Hi & Hlen & Hin)|Hin].
    + destruct i as [|[|[|i]]]; simpl in Hi, Hlen; try lia; try discriminate;
        injection Hi as <-; revert Hin;
        apply (proj1 (bool_decide_eq_false _)); reflexivity.
    + revert Hin. apply (proj1 (bool_decide_eq_false _)). reflexivity.
Defined.

Lemma common_step_on_sample_batch :
  Sample.batch !! "pixel_values" = Some (mkTensor [3; 2; 2] (replicate 12 0%Z))
  ∧ Sample.batch !! "labels" = Some (mkTensor [2; 2] [1; 1; 1; 1]%Z)
  ∧ ∃ sq : list Z,
      DPTLightningModule.common_step Sample.predicted_depth Sample.broadcast
        Sample.batch 0 Sample.module
      = (Ok (fmean sq), Sample.module)
      ∧ sq !! 3 = Some 9%Z.
Proof.
  split; [reflexivity|]. split; [reflexivity|].
  destruct (common_step_mean_squared_error Sample.predicted_depth
              Sample.broadcast Sample.batch 0 Sample.module
              (mkTensor [3; 2; 2] (replicate 12 0%Z))
              (mkTensor [2; 2] [1; 1; 1; 1]%Z)
              (mkTensor [2; 2] [1; 2; 3; 4]%Z))
    as (sq & Hrun & _ & Hsq); [reflexivity..|].
  exists sq. split; [exact Hrun|].
  apply (Hsq 3 4%Z 1%Z); reflexivity.
Defined.

Lemma optimizer_on_sample_checkpoint :
  ∃ s, DPTLightningModule.__init__ Sample.checkpoint = Ok s
    ∧ 1%positive ∈ parameters (DPTLightningModule.model s)
    ∧ DPTLightningModule.store s !! 1%positive
      = Some (mkParameter (mkTensor [1] [1%Z]) false None)
    ∧ ∃ opt,
        DPTLightningModule.configure_optimizers s = (Ok opt, s)
        ∧ 1%positive ∈ torch.optim.param_groups opt
        ∧ DPTLightningModule.store
            (pl.training_loop Sample.predicted_depth Sample.broadcast
               Sample.autograd Sample.adam_update opt
               [Sample.batch; Sample.batch] 0 s).2 !! 1%positive
          = Some (mkParameter (mkTensor [1] [1%Z]) false None).
Proof.
  eexists. split; [reflexivity|].
  assert (1%positive ∈ parameters Sample.dpt) as Hin.
  { apply (bool_decide_unpack _). vm_compute. exact I. }
  split; [exact Hin|]. split; [reflexivity|].
  destruct (optimizer_over_all_parameters Sample.predicted_depth
              Sample.broadcast Sample.autograd Sample.adam_update
              Sample.checkpoint _ 1%positive
              (mkParameter (mkTensor [1] [1%Z]) false None)
              eq_refl Hin eq_refl eq_refl)
    as (opt & Hopt & _ & Hmem & _ & Hloop).
  exists opt. split; [exact Hopt|]. split; [exact Hmem|]. apply Hloop.
Defined.

(** ** Early stopping *)

Section early_stopping_facts.
Context {F : Type} {F32 : Float32 F}.
Implicit Types (cb : pl.EarlyStopping) (metrics : nat → gmap string F).

(** In non-strict mode one check takes the callback from its state after
    [e] epochs to its state after [e + 1], and never raises. *)
Lemma on_validation_end_step cb metrics (e : nat) :
  pl.strict cb = false →
  pl.on_validation_end cb
    (pl.mkStoppingState (pl.best_before cb metrics e) (pl.stale_run cb metrics e))
    (metrics e)
  = Ok (pl.mkStoppingState (pl.best_before cb metrics (S e))
                           (pl.stale_run cb metrics (S e)),
        pl.stop_requested cb metrics (S e)).
Proof.
  intros Hstrict.
  unfold pl.on_validation_end, pl.stop_requested, pl.fails_to_improve.
  simpl. rewrite Hstrict.
  destruct (metrics e !! pl.monitor cb) as [c|]; [|done].
  by destruct (pl.improved _ c _).
Qed.

(** The loop over the remaining epochs: it ends without an exception, at
    the first check that asks for a stop, or else after the last epoch. *)
Lemma fit_loop_outcome cb metrics (e r : nat) :
  pl.strict cb = false →
  ∃ o,
    pl.fit_loop
      [(cb, pl.mkStoppingState (pl.best_before cb metrics e)
                               (pl.stale_run cb metrics e))]
      metrics e r = Ok o
    ∧ match o with
      | pl.EarlyStopped n =>
          e < n ≤ e + r
          ∧ pl.stop_requested cb metrics n = true
          ∧ ∀ m, e < m < n → pl.stop_requested cb metrics m = false
      | pl.MaxEpochsReached n =>
          n = e + r
          ∧ ∀ m, e < m ≤ e + r → pl.stop_requested cb metrics m = false
      end.
Proof.
  intros Hstrict. revert e. induction r as [|r IH]; intros e.
  { eexists. split; [done|]. split; [lia|]. intros m Hm. lia. }
  cbn [pl.fit_loop pl.run_callbacks].
  rewrite on_validation_end_step by done. rewrite orb_false_r.
  destruct (pl.stop_requested cb metrics (S e)) eqn:Hstop.
  - eexists. split; [done|]. split_and!; [lia..|done|]. intros m Hm. lia.
  - destruct (IH (S e)) as (o & Ho & Hspec). exists o. split; [done|].
    destruct o as [n|n].
    + destruct Hspec as (Hn & Hreq & Hbefore). split_and!; [lia..|done|].
      intros m Hm. destruct (decide (m = S e)) as [->|]; [done|].
      apply Hbefore. lia.
    + destruct Hspec as (-> & Hbefore). split; [lia|].
      intros m Hm. destruct (decide (m = S e)) as [->|]; [done|].
      apply Hbefore. lia.
Qed.

(** When the metric is logged in every epoch, the count kept by the
    callback is the length of the run of failing epochs that ends with the
    last one. *)
Lemma stale_run_spec cb metrics (n j : nat) :
  (∀ k, k < n → is_Some (metrics k !! pl.monitor cb)) →
  j ≤ pl.stale_run cb metrics n
  ↔ j ≤ n ∧ ∀ k, n - j ≤ k < n → pl.fails_to_improve cb metrics k = true.
Proof.
  revert j. induction n as [|n IH]; intros j Hlogged.
  { simpl. split; [intros ?; split; [done|lia]|by intros [? _]]. }
  destruct (Hlogged n) as [c Hc]; [lia|].
  assert (∀ k, k < n → is_Some (metrics k !! pl.monitor cb)) as Hlogged'.
  { intros k Hk. apply Hlogged. lia. }
  assert (pl.fails_to_improve cb metrics n
          = negb (pl.improved (pl.mode cb) c (pl.best_before cb metrics n)))
    as Hfail.
  { unfold pl.fails_to_improve. by rewrite Hc. }
  simpl. rewrite Hc.
  destruct (pl.improved _ c _) eqn:Himp; simpl in Hfail.
  - split.
    + intros Hj. assert (j = 0) as -> by lia. split; [lia|]. intros k Hk. lia.
    + intros [_ Hall]. destruct j as [|j]; [lia|].
      specialize (Hall n). rewrite Hfail in Hall.
      assert (false = true) by (apply Hall; lia). done.
  - destruct j as [|j].
    { split; [intros _; split; [lia|]; intros k Hk; lia|lia]. }
    rewrite <- Nat.succ_le_mono, (IH j Hlogged'). split.
    + intros [Hj Hall]. split; [lia|]. intros k Hk.
      destruct (decide (k = n)) as [->|]; [done|]. apply Hall. lia.
    + intros [Hj Hall]. split; [lia|]. intros k Hk. apply Hall. lia.
Qed.

Lemma stop_requested_spec cb metrics (n : nat) :
  0 < pl.patience cb →
  (∀ k, k < n → is_Some (metrics k !! pl.monitor cb)) →
  pl.stop_requested cb metrics n = true ↔ pl.stale_window cb metrics n.
Proof.
  intros Hpat Hlogged. unfold pl.stale_window.
  rewrite <- (stale_run_spec cb metrics n (pl.patience cb) Hlogged).
  destruct n as [|e].
  { simpl. split; [done|lia]. }
  unfold pl.stop_requested.
  rewrite andb_true_iff, bool_decide_eq_true. split; [by intros [_ ?]|].
  intros Hrun. split; [|done].
  apply (stale_run_spec cb metrics (S e) (pl.patience cb) Hlogged) in Hrun
    as [_ Hall].
  apply Hall. lia.
Qed.

(** The count never exceeds the number of checks after the first. *)
Lemma stale_run_bound cb metrics (n : nat) :
  pl.stale_run cb metrics (S n) ≤ n.
Proof.
  induction n as [|n IH].
  { simpl. by destruct (metrics 0 !! pl.monitor cb). }
  change (pl.stale_run cb metrics (S (S n)))
    with (match metrics (S n) !! pl.monitor cb with
          | Some c =>
              if pl.improved (pl.mode cb) c (pl.best_before cb metrics (S n))
              then 0 else S (pl.stale_run cb metrics (S n))
          | None => pl.stale_run cb metrics (S n)
          end).
  destruct (metrics (S n) !! pl.monitor cb) as [c|]; [|lia].
  destruct (pl.improved _ c _); lia.
Qed.

(** C5: the callback is consulted once per epoch.  In non-strict mode,
    with a positive patience, the epoch loop always ends without an
    exception; and when the monitored metric is logged in every epoch, it
    ends after [n] epochs by early stopping exactly when the [patience]
    epochs ending there all failed to improve the metric and no earlier
    epoch completed such a run (shorter runs are tolerated), and otherwise
    after [max_epochs] epochs. *)
Theorem early_stopping_halts_on_patience (t : pl.Trainer) cb metrics :
  pl.callbacks t = [cb] →
  pl.strict cb = false →
  0 < pl.patience cb →
  is_Ok (pl.fit t metrics)
  ∧ ((∀ k, k < pl.max_epochs t → is_Some (metrics k !! pl.monitor cb)) →
     ∃ o,
       pl.fit t metrics = Ok o
       ∧ match o with
         | pl.EarlyStopped n =>
             n ≤ pl.max_epochs t
             ∧ pl.stale_window cb metrics n
             ∧ ∀ m, m < n → ¬ pl.stale_window cb metrics m
         | pl.MaxEpochsReached n =>
             n = pl.max_epochs t
             ∧ ∀ m, m ≤ pl.max_epochs t → ¬ pl.stale_window cb metrics m
         end).
Proof.
  intros Hcbs Hstrict Hpat. unfold pl.fit. rewrite Hcbs. simpl.
  destruct (fit_loop_outcome cb metrics 0 (pl.max_epochs t) Hstrict)
    as (o & Ho & Hspec).
  simpl in Ho. split; [by exists o|].
  intros Hlogged. exists o. split; [done|].
  assert (∀ m, m ≤ pl.max_epochs t →
            pl.stop_requested cb metrics m = true
            ↔ pl.stale_window cb metrics m) as Hiff.
  { intros m Hm. apply stop_requested_spec; [done|].
    intros k Hk. apply Hlogged. lia. }
  destruct o as [n|n].
  - destruct Hspec as (Hn & Hreq & Hbefore). split_and!; [lia| |].
    + apply Hiff; [lia|done].
    + intros m Hm Hwin. apply Hiff in Hwin; [|lia].
      destruct m as [|m]; [done|]. rewrite Hbefore in Hwin by lia. done.
  - destruct Hspec as (-> & Hbefore). split; [done|].
    intros m Hm Hwin. apply Hiff in Hwin; [|lia].
    destruct m as [|m]; [done|]. rewrite Hbefore in Hwin by lia. done.
Qed.

(** With the notebook's arguments, [patience] 5 and [max_epochs] 5, the
    callback cannot ask for a stop: the loop always runs its 5 epochs. *)
Lemma notebook_trainer_runs_all_epochs metrics :
  pl.fit trainer metrics = Ok (pl.MaxEpochsReached 5).
Proof.
  destruct (fit_loop_outcome early_stop_callback metrics 0 5 eq_refl)
    as (o & Ho & Hspec).
  unfold pl.fit. simpl. simpl in Ho. rewrite Ho. f_equal.
  destruct o as [n|n]; [|by destruct Hspec as [-> _]].
  destruct Hspec as (Hn & Hreq & _). destruct n as [|n]; [lia|].
  unfold pl.stop_requested in Hreq.
  apply andb_true_iff in Hreq as [_ Hreq%bool_decide_eq_true].
  pose proof (stale_run_bound early_stop_callback metrics n).
  change (pl.patience early_stop_callback) with 5 in Hreq. lia.
Qed.
End early_stopping_facts.

(** The notebook's callback in a trainer that allows ten epochs, on a
    validation loss that stays flat: the loop stops early after six
    epochs, the first five of which without improvement end there. *)
Lemma early_stopping_on_flat_loss :
  pl.callbacks (pl.mkTrainer 10 [early_stop_callback]) = [early_stop_callback]
  ∧ pl.strict early_stop_callback = false
  ∧ 0 < pl.patience early_stop_callback
  ∧ pl.monitor early_stop_callback = "validation_loss"
  ∧ pl.fit (pl.mkTrainer 10 [early_stop_callback]) Sample.flat_metrics
    = Ok (pl.EarlyStopped 6)
  ∧ pl.stale_window early_stop_callback Sample.flat_metrics 6
  ∧ ∀ m, m < 6 → ¬ pl.stale_window early_stop_callback Sample.flat_metrics m.
Proof.
  assert (0 < pl.patience early_stop_callback) as Hpat by (simpl; lia).
  split; [reflexivity|]. split; [reflexivity|]. split; [exact Hpat|].
  split; [reflexivity|]. split; [reflexivity|].
  destruct (early_stopping_halts_on_patience
              (pl.mkTrainer 10 [early_stop_callback]) early_stop_callback
              Sample.flat_metrics eq_refl eq_refl Hpat) as [_ Hends].
  destruct Hends as (o & Ho & Hspec).
  { intros k _. exists 1%Z. reflexivity. }
  assert (pl.fit (pl.mkTrainer 10 [early_stop_callback]) Sample.flat_metrics
          = Ok (pl.EarlyStopped 6)) as Hrun by reflexivity.
  rewrite Hrun in Ho. injection Ho as <-.
  destruct Hspec as (_ & Hwindow & Hfirst). split; [exact Hwindow|exact Hfirst].
Defined.

(** With more epochs allowed, a loss that stays flat stops the loop after
    six: one epoch that sets the best value and five without improvement. *)
Lemma flat_loss_stops_after_six_epochs :
  pl.fit (pl.mkTrainer 10 [early_stop_callback]) Sample.flat_metrics
  = Ok (pl.EarlyStopped 6).
Proof. reflexivity. Qed.

(* ===================================================================== *)
(** * Part III: further properties of the code                            *)
(* ===================================================================== *)

(** ** Indexing *)

Lemma py_index_Ok {A} (l : list A) (i : Z) (x : A) :
  py_index l i = Ok x
  ↔ (- Z.of_nat (length l) ≤ i < Z.of_nat (length l))%Z
    ∧ l !! normalised_index (length l) i = Some x.
Proof.
  unfold py_index, normalised_index.
  destruct (Z.ltb_spec i 0) as [Hneg|Hpos].
  - destruct (Z.leb_spec 0 (Z.of_nat (length l) + i)); simpl.
    + destruct (Z.ltb_spec (Z.of_nat (length l) + i) (Z.of_nat (length l)));
        [|lia].
      destruct (l !! Z.to_nat (Z.of_nat (length l) + i)) as [y|] eqn:Hy.
      * split; [intros [= ->]; split; [lia|done]|by intros [_ [= ->]]].
      * split; [done|by intros [_ ?]].
    + split; [done|]. intros [? _]. lia.
  - destruct (Z.leb_spec 0 i); [|lia]. simpl.
    destruct (Z.ltb_spec i (Z.of_nat (length l))).
    + destruct (l !! Z.to_nat i) as [y|] eqn:Hy.
      * split; [intros [= ->]; split; [lia|done]|by intros [_ [= ->]]].
      * split; [done|by intros [_ ?]].
    + split; [done|]. intros [? _]. lia.
Qed.

Lemma py_index_Raise {A} (l : list A) (i : Z) (e : PyError) :
  py_index l i = Raise e → e = IndexError.
Proof.
  unfold py_index. destruct (_ && _); [|by intros [= <-]].
  destruct (l !! _); [done|by intros [= <-]].
Qed.

(** ** More on [CustomNYUDataset] *)

Section CustomNYUDataset_more.
Context {Px D F : Type}.
Context (resample : nat * nat → Image.Image D → Result (list D)).
Context (float32 : D → F).
Implicit Types (s : CustomNYUDataset.self Px D F) (idx : Z).

(** The steps of [__getitem__] behind a returned example. *)
Lemma getitem_result_Ok s idx ex :
  CustomNYUDataset.getitem_result resample float32 s idx = Ok ex →
  ∃ item processed pv px,
    py_index (CustomNYUDataset.dataset s) idx = Ok item
    ∧ CustomNYUDataset.processor s [to_PIL (image item)] = Ok processed
    ∧ processed !! "pixel_values" = Some pv
    ∧ resample (736, 576) (to_PIL (depth_map item)) = Ok px
    ∧ ex = {[ "pixel_values" := torch.squeeze pv;
              "labels" := mkTensor [576; 736] (float32 <$> px) ]}.
Proof.
  unfold CustomNYUDataset.getitem_result. py_run.
  destruct (py_index _ idx) as [item|e]; py_run; [|done].
  destruct (CustomNYUDataset.processor s _) as [processed|e] eqn:Hproc;
    py_run; [|done].
  unfold dict_getitem.
  destruct (processed !! "pixel_values") as [pv|] eqn:Hpv; py_run; [|done].
  unfold Resize, Image.resize. py_run.
  destruct (resample _ _) as [px|e] eqn:Hpx; py_run; [|done].
  intros [= <-]. by exists item, processed, pv, px.
Qed.

(** X1: the 'pixel_values' tensor of a returned example is the
    processor's tensor with every dimension of size 1 removed, not only
    the leading batch dimension: its data are unchanged, its shape has no
    1 left, a 1 x c x h x w batch becomes c x h x w when c, h and w differ
    from 1, and a single-channel 1 x 1 x h x w batch loses its channel
    dimension as well. *)
Theorem getitem_pixel_values_squeezed s idx ex :
  (CustomNYUDataset.__getitem__ resample float32 idx s).1 = Ok ex →
  ∃ item processed pv out,
    py_index (CustomNYUDataset.dataset s) idx = Ok item
    ∧ CustomNYUDataset.processor s [to_PIL (image item)] = Ok processed
    ∧ processed !! "pixel_values" = Some pv
    ∧ ex !! "pixel_values" = Some out
    ∧ data out = data pv
    ∧ (1 ∉ shape out)
    ∧ (∀ d, d ∈ shape out ↔ d ∈ shape pv ∧ d ≠ 1)
    ∧ (∀ c h w, shape pv = [1; c; h; w] → c ≠ 1 → h ≠ 1 → w ≠ 1 →
                shape out = [c; h; w])
    ∧ (∀ h w, shape pv = [1; 1; h; w] → h ≠ 1 → w ≠ 1 → shape out = [h; w]).
Proof.
  rewrite getitem_run. simpl. intros Hex.
  apply getitem_result_Ok in Hex
    as (item & processed & pv & px & Hitem & Hproc & Hpv & _ & ->).
  exists item, processed, pv, (torch.squeeze pv).
  split_and!; try done.
  - unfold torch.squeeze. simpl. rewrite list_elem_of_filter. by intros [? _].
  - intros d. unfold torch.squeeze. simpl. rewrite list_elem_of_filter.
    tauto.
  - intros c h w Hshape Hc Hh Hw. unfold torch.squeeze. simpl.
    rewrite Hshape. rewrite !filter_cons, filter_nil.
    repeat case_decide; done.
  - intros h w Hshape Hh Hw. unfold torch.squeeze. simpl.
    rewrite Hshape. rewrite !filter_cons, filter_nil.
    repeat case_decide; done.
Qed.

(** X2: in a returned example the label is computed from the depth map
    alone and the 'pixel_values' from the image and the processor alone:
    two calls, on any two dataset objects and indices, whose rows have the
    same depth map return the same 'labels', and two calls with the same
    processor and the same image return the same 'pixel_values'.  A
    column stored as an array counts as the image made from it. *)
Theorem getitem_fields_independent s s' idx idx' item item' ex ex' :
  py_index (CustomNYUDataset.dataset s) idx = Ok item →
  py_index (CustomNYUDataset.dataset s') idx' = Ok item' →
  (CustomNYUDataset.__getitem__ resample float32 idx s).1 = Ok ex →
  (CustomNYUDataset.__getitem__ resample float32 idx' s').1 = Ok ex' →
  (to_PIL (depth_map item) = to_PIL (depth_map item') →
   ex !! "labels" = ex' !! "labels")
  ∧ (CustomNYUDataset.processor s = CustomNYUDataset.processor s' →
     to_PIL (image item) = to_PIL (image item') →
     ex !! "pixel_values" = ex' !! "pixel_values").
Proof.
  rewrite !getitem_run. simpl. intros Hitem Hitem' Hex Hex'.
  apply getitem_result_Ok in Hex
    as (it & processed & pv & px & Hit & Hproc & Hpv & Hpx & ->).
  apply getitem_result_Ok in Hex'
    as (it' & processed' & pv' & px' & Hit' & Hproc' & Hpv' & Hpx' & ->).
  assert (it = item) as -> by congruence.
  assert (it' = item') as -> by congruence.
  split.
  - intros Hdepth. rewrite Hdepth in Hpx.
    assert (px = px') as -> by congruence. by simplify_map_eq.
  - intros Hp Himage. rewrite Hp, Himage in Hproc.
    assert (processed = processed') as -> by congruence.
    assert (pv = pv') as -> by congruence. by simplify_map_eq.
Qed.

(** X3: [__getitem__] returns an example exactly when the index lies in
    [-len, len) and the image processor (with a 'pixel_values' entry in
    what it returns) and the resampling filter succeed on the row the
    index stands for; the example then has the two keys 'pixel_values'
    and 'labels' and no other. *)
Theorem getitem_succeeds_iff s idx :
  (is_Ok (CustomNYUDataset.__getitem__ resample float32 idx s).1
   ↔ (- Z.of_nat (length (CustomNYUDataset.dataset s)) ≤ idx
      < Z.of_nat (length (CustomNYUDataset.dataset s)))%Z
     ∧ ∃ item,
         CustomNYUDataset.dataset s
           !! normalised_index (length (CustomNYUDataset.dataset s)) idx
         = Some item
         ∧ CustomNYUDataset.collaborators_succeed resample s item)
  ∧ ∀ ex,
      (CustomNYUDataset.__getitem__ resample float32 idx s).1 = Ok ex →
      dom ex = ({[ "pixel_values"; "labels" ]} : gset string).
Proof.
  rewrite getitem_run. simpl. split; [split|].
  - intros [ex Hex].
    apply getitem_result_Ok in Hex
      as (item & processed & pv & px & Hitem & Hproc & Hpv & Hpx & _).
    apply py_index_Ok in Hitem as [Hrange Hitem].
    split; [done|]. exists item. split; [done|].
    split; [by exists processed, pv|by exists px].
  - intros [Hrange (item & Hitem & (processed & pv & Hproc & Hpv) & [px Hpx])].
    assert (py_index (CustomNYUDataset.dataset s) idx = Ok item) as Hpy
      by by apply py_index_Ok.
    unfold CustomNYUDataset.getitem_result. rewrite Hpy. py_run.
    rewrite Hproc. py_run. unfold dict_getitem. rewrite Hpv. py_run.
    unfold Resize, Image.resize. py_run. rewrite Hpx. py_run. by eexists.
  - intros ex Hex.
    apply getitem_result_Ok in Hex as (? & ? & ? & ? & _ & _ & _ & _ & ->).
    by rewrite dom_insert_L, dom_singleton_L.
Qed.

(** X4: the failures of [__getitem__] surface in the order of the source
    and unchanged.  An index out of range ends the call with IndexError
    whatever the processor does.  On a row whose two columns are already
    PIL images, so that nothing is converted, an exception of the
    processor ends the call before the depth map is resized; a processor
    result without 'pixel_values' ends it with KeyError; an exception of
    the resampling filter comes last.  The dataset object is left as it
    was. *)
Theorem getitem_failure_order s idx :
  (CustomNYUDataset.__getitem__ resample float32 idx s).2 = s
  ∧ (∀ e, py_index (CustomNYUDataset.dataset s) idx = Raise e →
          e = IndexError
          ∧ (CustomNYUDataset.__getitem__ resample float32 idx s).1
            = Raise IndexError)
  ∧ ∀ item img dm,
      py_index (CustomNYUDataset.dataset s) idx = Ok item →
      image item = AsImage img →
      depth_map item = AsImage dm →
      (∀ e, CustomNYUDataset.processor s [img] = Raise e →
            (CustomNYUDataset.__getitem__ resample float32 idx s).1 = Raise e)
      ∧ ∀ processed,
          CustomNYUDataset.processor s [img] = Ok processed →
          (processed !! "pixel_values" = None →
           (CustomNYUDataset.__getitem__ resample float32 idx s).1
           = Raise (KeyError "pixel_values"))
          ∧ (∀ e, is_Some (processed !! "pixel_values") →
                  resample (736, 576) dm = Raise e →
                  (CustomNYUDataset.__getitem__ resample float32 idx s).1
                  = Raise e).
Proof.
  rewrite !getitem_run. simpl. unfold CustomNYUDataset.getitem_result.
  split_and!; [done| |].
  - intros e He. pose proof (py_index_Raise _ _ _ He) as ->.
    by rewrite He.
  - intros item img dm Hitem Himg Hdm. rewrite Hitem. py_run.
    rewrite Himg, Hdm. simpl. split.
    + intros e He. by rewrite He.
    + intros processed Hproc. rewrite Hproc. py_run. unfold dict_getitem.
      split.
      * intros Hnone. by rewrite Hnone.
      * intros e [pv Hpv] Hresample. rewrite Hpv. py_run.
        unfold Resize, Image.resize. py_run. by rewrite Hresample.
Qed.
End CustomNYUDataset_more.

(** ** More on [collate_fn] *)

Section collate_fn_more.
Context {F : Type}.
Implicit Types (batch : list (gmap string (Tensor F))) (t : Tensor F).

Lemma mapM_dict_getitem_Ok batch (key : string) (ts : list (Tensor F)) :
  mapM (λ item, dict_getitem item key) batch = Ok ts →
  Forall2 (λ item t, item !! key = Some t) batch ts.
Proof.
  revert ts. induction batch as [|item batch IH]; intros ts.
  { intros [= <-]. constructor. }
  change (mapM (λ item, dict_getitem item key) (item :: batch))
    with (dict_getitem item key ≫= λ x,
          mapM (λ item, dict_getitem item key) batch ≫= λ xs, mret (x :: xs)).
  destruct (mapM (λ item, dict_getitem item key) batch) as [ts'|e] eqn:Hm;
    unfold dict_getitem; destruct (item !! key) as [t|] eqn:Ht; try done.
  intros [= <-]. constructor; [done|by apply IH].
Qed.

Lemma mapM_dict_getitem_missing batch (key : string) :
  Exists (λ item, item !! key = None) batch →
  mapM (λ item, dict_getitem item key) batch = Raise (KeyError key).
Proof.
  induction 1 as [item batch Hnone|item batch _ IH].
  - change (mapM (λ item, dict_getitem item key) (item :: batch))
      with (dict_getitem item key ≫= λ x,
            mapM (λ item, dict_getitem item key) batch ≫= λ xs, mret (x :: xs)).
    unfold dict_getitem. by rewrite Hnone.
  - change (mapM (λ item, dict_getitem item key) (item :: batch))
      with (dict_getitem item key ≫= λ x,
            mapM (λ item, dict_getitem item key) batch ≫= λ xs, mret (x :: xs)).
    rewrite IH. unfold dict_getitem. by destruct (item !! key).
Qed.

Lemma mapM_dict_getitem_present batch (key : string) :
  Forall (λ item, is_Some (item !! key)) batch →
  mapM (λ item, dict_getitem item key) batch = Ok (omap (.!! key) batch)
  ∧ length (omap (.!! key) batch) = length batch.
Proof.
  induction 1 as [|item batch [t Ht] _ [IH1 IH2]]; [done|].
  change (mapM (λ item, dict_getitem item key) (item :: batch))
    with (dict_getitem item key ≫= λ x,
          mapM (λ item, dict_getitem item key) batch ≫= λ xs, mret (x :: xs)).
  rewrite IH1. unfold dict_getitem. simpl. rewrite Ht. simpl.
  split; [done|]. by f_equal.
Qed.

Lemma stack_Ok (ts : list (Tensor F)) t :
  torch.stack ts = Ok t →
  ts ≠ []
  ∧ ∃ sh, Forall (λ u, shape u = sh) ts
          ∧ t = mkTensor (length ts :: sh) (concat (data <$> ts)).
Proof.
  destruct ts as [|t0 rest]; [done|]. unfold torch.stack.
  destruct (forallb _ rest) eqn:Hall; [|done].
  intros [= <-]. split; [done|]. exists (shape t0). split; [|done].
  constructor; [done|]. apply Forall_forall. intros u Hu.
  rewrite forallb_forall in Hall. apply list_elem_of_In in Hu.
  by apply Hall, bool_decide_eq_true in Hu.
Qed.

Lemma stack_Raise (ts : list (Tensor F)) (e : PyError) :
  torch.stack ts = Raise e → e = RuntimeError.
Proof.
  destruct ts as [|t0 rest]; [by intros [= <-]|]. unfold torch.stack.
  destruct (forallb _ rest); [done|by intros [= <-]].
Qed.

(** [collate_fn] once the fields have been read. *)
Lemma collate_fn_of_fields batch :
  Forall (λ item, is_Some (item !! "pixel_values")) batch →
  Forall (λ item, is_Some (item !! "labels")) batch →
  collate_fn batch
  = (pixel_values ← torch.stack (omap (.!! "pixel_values") batch);
     labels ← torch.stack (omap (.!! "labels") batch);
     Ok ({[ "pixel_values" := pixel_values; "labels" := labels ]}
           : gmap string (Tensor F))).
Proof.
  intros Hp Hl. unfold collate_fn.
  destruct (mapM_dict_getitem_present batch "pixel_values" Hp) as [-> _].
  by destruct (mapM_dict_getitem_present batch "labels" Hl) as [-> _].
Qed.

(** X5: [collate_fn] returns a batch only for a non-empty list in which
    every item has both fields, all 'pixel_values' of one shape and all
    'labels' of one shape; the batch then has exactly those two fields,
    with the list length put in front of the per-item shapes. *)
Theorem collate_fn_returns_only_if batch (b : gmap string (Tensor F)) :
  collate_fn batch = Ok b →
  batch ≠ []
  ∧ ∃ sp sl pvs lbs,
      Forall (λ item, ∃ pv lb, has_fields item pv lb
                               ∧ shape pv = sp ∧ shape lb = sl) batch
      ∧ b = {[ "pixel_values" := pvs; "labels" := lbs ]}
      ∧ shape pvs = length batch :: sp
      ∧ shape lbs = length batch :: sl.
Proof.
  unfold collate_fn.
  destruct (mapM (λ item, dict_getitem item "pixel_values") batch)
    as [pvl|e] eqn:Hpvl; [|done].
  apply mapM_dict_getitem_Ok in Hpvl.
  destruct (mapM (λ item, dict_getitem item "labels") batch)
    as [lbl|e] eqn:Hlbl; [|done].
  apply mapM_dict_getitem_Ok in Hlbl.
  destruct (torch.stack pvl) as [pvs|e] eqn:Hpvs;
    [|by unfold mbind, Result_bind; rewrite Hpvs].
  destruct (torch.stack lbl) as [lbs|e] eqn:Hlbs;
    [|by unfold mbind, Result_bind; rewrite Hpvs, Hlbs].
  unfold mbind, Result_bind. rewrite Hpvs, Hlbs.
  intros [= <-].
  apply stack_Ok in Hpvs as (Hne & sp & Hsp & ->).
  apply stack_Ok in Hlbs as (_ & sl & Hsl & ->).
  pose proof (Forall2_length _ _ _ Hpvl) as Hlenp.
  pose proof (Forall2_length _ _ _ Hlbl) as Hlenl.
  split; [by destruct batch, pvl|].
  exists sp, sl. eexists _, _. split_and!; [|done|simpl; by rewrite Hlenp|
                                           simpl; by rewrite Hlenl].
  clear Hne Hlenp Hlenl. revert lbl Hlbl Hsl.
  induction Hpvl as [|item pv batch pvl Hpv _ IH]; intros lbl Hlbl Hsl;
    [constructor|].
  inversion Hlbl as [|? lb ? lbl' Hlb Hlbl']; subst.
  apply Forall_cons in Hsp as [Hsp1 Hsp2].
  apply Forall_cons in Hsl as [Hsl1 Hsl2].
  constructor; [by exists pv, lb|by eapply IH].
Qed.

(** X6: how [collate_fn] fails.  If some item lacks 'pixel_values' the
    call ends with KeyError 'pixel_values', also when an earlier item
    lacks 'labels'; if all have 'pixel_values' and some item lacks
    'labels', with KeyError 'labels'; if all items have both fields and
    two of them differ in the shape of either field, with the
    RuntimeError of [torch.stack]. *)
Theorem collate_fn_failures batch :
  (Exists (λ item, item !! "pixel_values" = None) batch →
   collate_fn batch = Raise (KeyError "pixel_values"))
  ∧ (Forall (λ item, is_Some (item !! "pixel_values")) batch →
     Exists (λ item, item !! "labels" = None) batch →
     collate_fn batch = Raise (KeyError "labels"))
  ∧ (Forall (λ item, is_Some (item !! "pixel_values")
                     ∧ is_Some (item !! "labels")) batch →
     ∀ item item' (key : string) t t',
       key = "pixel_values" ∨ key = "labels" →
       item ∈ batch → item' ∈ batch →
       item !! key = Some t → item' !! key = Some t' →
       shape t ≠ shape t' →
       collate_fn batch = Raise RuntimeError).
Proof.
  split_and!.
  - intros Hmiss. unfold collate_fn.
    by rewrite (mapM_dict_getitem_missing _ _ Hmiss).
  - intros Hp Hmiss. unfold collate_fn.
    destruct (mapM_dict_getitem_present batch "pixel_values" Hp) as [-> _].
    by rewrite (mapM_dict_getitem_missing _ _ Hmiss).
  - intros Hboth item item' key t t' Hkey Hin Hin' Ht Ht' Hdiff.
    assert (Forall (λ item, is_Some (item !! "pixel_values")) batch) as Hp.
    { eapply Forall_impl; [exact Hboth|]. intros x [H1 H2]. exact H1. }
    assert (Forall (λ item, is_Some (item !! "labels")) batch) as Hl.
    { eapply Forall_impl; [exact Hboth|]. intros x [H1 H2]. exact H2. }
    rewrite collate_fn_of_fields by done.
    assert (∀ sh, Forall (λ u : Tensor F, shape u = sh) (omap (.!! key) batch)
                  → False) as Hnot.
    { intros sh Hall. rewrite Forall_forall in Hall. apply Hdiff.
      transitivity sh; [|symmetry]; apply Hall; apply list_elem_of_omap;
        eauto. }
    destruct (torch.stack (omap (.!! "pixel_values") batch)) as [pvs|e]
      eqn:Hpvs.
    + destruct (torch.stack (omap (.!! "labels") batch)) as [lbs|e] eqn:Hlbs.
      * exfalso. apply stack_Ok in Hpvs as (_ & sp & Hsp & _).
        apply stack_Ok in Hlbs as (_ & sl & Hsl & _).
        destruct Hkey as [-> | ->]; eauto.
      * by rewrite (stack_Raise _ _ Hlbs).
    + by rewrite (stack_Raise _ _ Hpvs).
Qed.
End collate_fn_more.

(** ** Batches *)

(** A list comprehension whose body leaves the object alone runs as a
    plain [mapM] over the results. *)
Lemma mapM_Py_pure {S A B} (f : A → Py S B) (g : A → Result B) (s : S)
    (xs : list A) :
  (∀ x, f x s = (g x, s)) →
  mapM f xs s = (mapM g xs, s).
Proof.
  intros Hf. induction xs as [|x xs IH]; [done|].
  change (mapM f (x :: xs) s)
    with (match f x s with
          | (Ok y, s') =>
              match mapM f xs s' with
              | (Ok ys, s'') => (Ok (y :: ys), s'')
              | (Raise e, s'') => (Raise e, s'')
              end
          | (Raise e, s') => (Raise e, s')
          end).
  change (mapM g (x :: xs))
    with (g x ≫= λ y, mapM g xs ≫= λ ys, mret (y :: ys)).
  rewrite Hf. destruct (g x) as [y|e]; [|done].
  rewrite IH. by destruct (mapM g xs).
Qed.

Lemma mapM_Result_Forall2 {A B} (g : A → Result B) (xs : list A)
    (ys : list B) :
  Forall2 (λ x y, g x = Ok y) xs ys → mapM g xs = Ok ys.
Proof.
  induction 1 as [|x y xs ys Hx _ IH]; [done|].
  change (mapM g (x :: xs))
    with (g x ≫= λ y, mapM g xs ≫= λ ys, mret (y :: ys)).
  by rewrite Hx, IH.
Qed.

Lemma mapM_Result_first_failure {A B} (g : A → Result B)
    (good : list A) (bad : A) (rest : list A) (e : PyError) :
  Forall (λ x, is_Ok (g x)) good → g bad = Raise e →
  mapM g (good ++ bad :: rest) = Raise e.
Proof.
  intros Hgood Hbad. induction Hgood as [|x good [y Hy] _ IH].
  - change (mapM g ([] ++ bad :: rest))
      with (g bad ≫= λ y, mapM g rest ≫= λ ys, mret (y :: ys)).
    by rewrite Hbad.
  - change (mapM g ((x :: good) ++ bad :: rest))
      with (g x ≫= λ y, mapM g (good ++ bad :: rest) ≫= λ ys, mret (y :: ys)).
    by rewrite Hy, IH.
Qed.

Section batch_sampler_facts.
Implicit Types (sampler batch : list Z) (batch_size : nat).

Lemma batch_sampler_concat batch_size sampler batch :
  0 < batch_size → length batch < batch_size →
  concat (batch_sampler batch_size sampler batch) = batch ++ sampler.
Proof.
  intros Hpos. revert batch.
  induction sampler as [|idx sampler IH]; intros batch Hlen; simpl.
  - case_bool_decide; simpl; [by rewrite !app_nil_r|].
    destruct batch; [done|simpl in *; lia].
  - case_bool_decide as Hfull; simpl.
    + rewrite IH by (simpl; lia). by rewrite <- app_assoc.
    + rewrite IH; [by rewrite <- app_assoc|].
      rewrite length_app in *. simpl in *. lia.
Qed.

Lemma batch_sampler_sizes batch_size sampler batch :
  0 < batch_size → length batch < batch_size →
  Forall (λ b, 0 < length b ≤ batch_size)
         (batch_sampler batch_size sampler batch).
Proof.
  intros Hpos. revert batch.
  induction sampler as [|idx sampler IH]; intros batch Hlen; simpl.
  - case_bool_decide; [|constructor]. repeat constructor; lia.
  - case_bool_decide as Hfull.
    + constructor; [lia|]. apply IH. simpl. lia.
    + apply IH. rewrite length_app in *. simpl in *. lia.
Qed.

Lemma batch_sampler_full batch_size sampler batch (i : nat) b :
  0 < batch_size → length batch < batch_size →
  batch_sampler batch_size sampler batch !! i = Some b →
  S i < length (batch_sampler batch_size sampler batch) →
  length b = batch_size.
Proof.
  intros Hpos. revert batch i.
  induction sampler as [|idx sampler IH]; intros batch i Hlen; simpl.
  - case_bool_decide; simpl; [|done]. intros _ ?. lia.
  - case_bool_decide as Hfull.
    + destruct i as [|i]; simpl; [by intros [= <-]|].
      intros Hb Hi. eapply IH; [|done|lia]. simpl. lia.
    + apply IH. rewrite length_app in *. simpl in *. lia.
Qed.

Lemma batch_sampler_count batch_size sampler batch :
  0 < batch_size → length batch < batch_size →
  length (batch_sampler batch_size sampler batch)
  = (length batch + length sampler + batch_size - 1) / batch_size.
Proof.
  intros Hpos. revert batch.
  induction sampler as [|idx sampler IH]; intros batch Hlen; simpl.
  - case_bool_decide; simpl.
    + apply (Nat.div_unique _ _ 1 (length batch - 1)); lia.
    + symmetry. apply Nat.div_small. lia.
  - case_bool_decide as Hfull; rewrite length_app in Hfull; simpl in Hfull.
    + simpl. rewrite IH by (simpl; lia). simpl.
      replace (length batch + S (length sampler) + batch_size - 1)
        with (1 * batch_size + (length sampler + batch_size - 1)) by lia.
      rewrite Nat.div_add_l by lia. done.
    + rewrite IH by (rewrite length_app; simpl; lia).
      rewrite length_app. simpl. f_equal. lia.
Qed.

(** X9: the batches of a loader.  With a positive batch size the sampled
    indices are handed out in their order, each exactly once; no batch is
    empty and none is longer than the batch size; every batch but the
    last is full; and there are as many batches as the number of indices
    divided by the batch size, rounded up (none for no index). *)
Theorem batch_sampler_partitions batch_size sampler :
  0 < batch_size →
  concat (batch_sampler batch_size sampler []) = sampler
  ∧ Forall (λ b, 0 < length b ≤ batch_size)
           (batch_sampler batch_size sampler [])
  ∧ (∀ i b, batch_sampler batch_size sampler [] !! i = Some b →
            S i < length (batch_sampler batch_size sampler []) →
            length b = batch_size)
  ∧ length (batch_sampler batch_size sampler [])
    = (length sampler + batch_size - 1) / batch_size.
Proof.
  intros Hpos. split_and!.
  - by rewrite batch_sampler_concat by (simpl; lia).
  - apply batch_sampler_sizes; simpl; lia.
  - intros i b. apply batch_sampler_full; simpl; lia.
  - by rewrite batch_sampler_count by (simpl; lia).
Qed.
End batch_sampler_facts.

Lemma mapM_Py_Forall2 {S A B} (f : A → Py S B) (s : S) (xs : list A)
    (ys : list B) :
  Forall2 (λ x y, f x s = (Ok y, s)) xs ys → mapM f xs s = (Ok ys, s).
Proof.
  induction 1 as [|x y xs ys Hx _ IH]; [done|].
  change (mapM f (x :: xs) s)
    with (match f x s with
          | (Ok y, s') =>
              match mapM f xs s' with
              | (Ok ys, s'') => (Ok (y :: ys), s'')
              | (Raise e, s'') => (Raise e, s'')
              end
          | (Raise e, s') => (Raise e, s')
          end).
  by rewrite Hx, IH.
Qed.

Lemma Forall_exists_Forall2 {A B} (R : A → B → Prop) (xs : list A) :
  Forall (λ x, ∃ y, R x y) xs → ∃ ys, Forall2 R xs ys.
Proof.
  induction 1 as [|x xs [y Hy] _ [ys IH]]; [by exists []|].
  exists (y :: ys). by constructor.
Qed.

Lemma collate_fn_uniform {F} (batch : list (gmap string (Tensor F)))
    (sp sl : list nat) :
  batch ≠ [] →
  Forall (λ item, ∃ pv lb, has_fields item pv lb
                           ∧ shape pv = sp ∧ shape lb = sl) batch →
  ∃ pvs lbs,
    collate_fn batch = Ok {[ "pixel_values" := pvs; "labels" := lbs ]}
    ∧ shape pvs = length batch :: sp
    ∧ shape lbs = length batch :: sl.
Proof.
  intros Hne Hall.
  destruct (fields_present batch "pixel_values" sp) as (_ & Hp2 & Hp3).
  { eapply Forall_impl; [exact Hall|].
    intros item (pv & lb & [? ?] & ? & ?). eauto. }
  destruct (fields_present batch "labels" sl) as (_ & Hl2 & Hl3).
  { eapply Forall_impl; [exact Hall|].
    intros item (pv & lb & [? ?] & ? & ?). eauto. }
  rewrite collate_fn_of_fields.
  - rewrite (stack_uniform (omap (.!! "pixel_values") batch) sp),
      (stack_uniform (omap (.!! "labels") batch) sl); try done.
    + eexists _, _. split; [done|]. simpl. by rewrite Hp3, Hl3.
    + intros Hnil. apply (f_equal length) in Hnil. rewrite Hl3 in Hnil.
      by destruct batch.
    + intros Hnil. apply (f_equal length) in Hnil. rewrite Hp3 in Hnil.
      by destruct batch.
  - eapply Forall_impl; [exact Hall|].
    intros item (pv & lb & [Hpv ?] & ? & ?). by exists pv.
  - eapply Forall_impl; [exact Hall|].
    intros item (pv & lb & [? Hlb] & ? & ?). by exists lb.
Qed.

Section DataLoader_facts.
Context {Px D F : Type}.
Context (resample : nat * nat → Image.Image D → Result (list D)).
Context (float32 : D → F).
Implicit Types (s : CustomNYUDataset.self Px D F) (idx : Z).
Implicit Types (indices : list Z).

Lemma fetch_run s indices :
  fetch resample float32 indices s
  = (mapM (CustomNYUDataset.getitem_result resample float32 s) indices
       ≫= collate_fn, s).
Proof.
  change (fetch resample float32 indices s)
    with (match mapM (CustomNYUDataset.__getitem__ resample float32)
                     indices s with
          | (Ok data, s') => (collate_fn data, s')
          | (Raise e, s') => (Raise e, s')
          end).
  rewrite (mapM_Py_pure _
             (CustomNYUDataset.getitem_result resample float32 s))
    by (intros idx; apply getitem_run).
  by destruct (mapM _ indices).
Qed.

(** The examples of a list of indices on each of which [__getitem__]
    returns 'pixel_values' of shape [sp]. *)
Lemma getitem_examples s indices (sp : list nat) :
  Forall (λ idx, ∃ ex pv,
            (CustomNYUDataset.__getitem__ resample float32 idx s).1 = Ok ex
            ∧ ex !! "pixel_values" = Some pv ∧ shape pv = sp) indices →
  ∃ exs,
    mapM (CustomNYUDataset.getitem_result resample float32 s) indices = Ok exs
    ∧ length exs = length indices
    ∧ Forall (λ ex, ∃ pv lb, has_fields ex pv lb
                             ∧ shape pv = sp ∧ shape lb = [576; 736]) exs.
Proof.
  induction 1 as [|idx indices (ex & pv & Hex & Hpv & Hsp) _
                   (exs & Hexs & Hlen & Hall)].
  { by exists []. }
  rewrite getitem_run in Hex. simpl in Hex.
  destruct (getitem_result_labels _ _ _ _ _ Hex) as (lb & Hlb & Hshape).
  exists (ex :: exs). split_and!.
  - change (mapM ?g (idx :: indices))
      with (g idx ≫= λ y, mapM g indices ≫= λ ys, mret (y :: ys)).
    by rewrite Hex, Hexs.
  - simpl. by rewrite Hlen.
  - constructor; [|done]. by exists pv, lb.
Qed.

(** X7: a batch built from the dataset.  For a non-empty list of indices
    on each of which [__getitem__] returns an example with 'pixel_values'
    of shape [sp], collating the examples succeeds, leaves the dataset
    object as it was, and gives 'labels' of shape (n, 576, 736) and
    'pixel_values' of shape n followed by [sp], n being the number of
    indices; the size the dataset was configured with plays no part. *)
Theorem fetch_batch_shapes s indices (sp : list nat) :
  indices ≠ [] →
  Forall (λ idx, ∃ ex pv,
            (CustomNYUDataset.__getitem__ resample float32 idx s).1 = Ok ex
            ∧ ex !! "pixel_values" = Some pv ∧ shape pv = sp) indices →
  ∃ pvs lbs,
    fetch resample float32 indices s
    = (Ok {[ "pixel_values" := pvs; "labels" := lbs ]}, s)
    ∧ shape pvs = length indices :: sp
    ∧ shape lbs = [length indices; 576; 736].
Proof.
  intros Hne Hall.
  destruct (getitem_examples s indices sp Hall) as (exs & Hexs & Hlen & Hex).
  destruct (collate_fn_uniform exs sp [576; 736]) as (pvs & lbs & Hc & Hp & Hl);
    [by destruct indices, exs|done|].
  exists pvs, lbs. rewrite fetch_run, Hexs. simpl.
  split_and!; [by rewrite Hc|by rewrite Hp, Hlen|by rewrite Hl, Hlen].
Qed.

(** X8: a batch fails with the exception of the first index on which
    [__getitem__] fails, for instance IndexError for an index out of
    range; the examples already built are dropped and [collate_fn] is
    not reached. *)
Theorem fetch_first_failure s (good : list Z) (bad : Z) (rest : list Z)
    (e : PyError) :
  Forall (λ idx,
            is_Ok (CustomNYUDataset.__getitem__ resample float32 idx s).1)
         good →
  (CustomNYUDataset.__getitem__ resample float32 bad s).1 = Raise e →
  fetch resample float32 (good ++ bad :: rest) s = (Raise e, s)
  ∧ ((bad < - Z.of_nat (length (CustomNYUDataset.dataset s))
      ∨ Z.of_nat (length (CustomNYUDataset.dataset s)) ≤ bad)%Z →
     e = IndexError).
Proof.
  intros Hgood Hbad. rewrite getitem_run in Hbad. simpl in Hbad. split.
  - rewrite fetch_run.
    rewrite (mapM_Result_first_failure _ good bad rest e); [done| |done].
    eapply Forall_impl; [exact Hgood|]. intros idx. cbv beta.
    by rewrite getitem_run.
  - intros Hout. unfold CustomNYUDataset.getitem_result in Hbad.
    rewrite py_index_out_of_range in Hbad by done. by injection Hbad.
Qed.

(** X10: one pass over a loader of the dataset.  A loader that shuffles
    refuses an empty dataset with ValueError.  Otherwise, with a positive
    batch size, if [__getitem__] returns an example with 'pixel_values'
    of shape [sp] on every sampled index (all of [range(len(dataset))]
    without shuffling), the pass yields the batches without an exception
    and leaves the dataset object as it was; there are as many batches as
    the number of indices divided by the batch size, rounded up, and each
    has 'labels' of shape (k, 576, 736) and 'pixel_values' of shape k
    followed by [sp] for some k from 1 to the batch size.  [collate_fn]
    is never given an empty list: without shuffling, a dataset without
    rows yields no batch at all. *)
Theorem DataLoader_pass_shapes (shuffle : bool) (batch_size : nat)
    (shuffled : list Z) s (sp : list nat) :
  0 < batch_size →
  (shuffle = true → CustomNYUDataset.dataset s = [] →
   DataLoader_iter resample float32 shuffle batch_size shuffled s
   = (Raise ValueError, s))
  ∧ ((shuffle = true → CustomNYUDataset.dataset s ≠ []) →
     Forall (λ idx, ∃ ex pv,
               (CustomNYUDataset.__getitem__ resample float32 idx s).1 = Ok ex
               ∧ ex !! "pixel_values" = Some pv ∧ shape pv = sp)
            (if shuffle then shuffled
             else py_range (length (CustomNYUDataset.dataset s))) →
     ∃ batches,
       DataLoader_iter resample float32 shuffle batch_size shuffled s
       = (Ok batches, s)
       ∧ length batches
         = (length (if shuffle then shuffled
                    else py_range (length (CustomNYUDataset.dataset s)))
            + batch_size - 1) / batch_size
       ∧ Forall (λ b, ∃ k pvs lbs,
                   0 < k ≤ batch_size
                   ∧ b = {[ "pixel_values" := pvs; "labels" := lbs ]}
                   ∧ shape pvs = k :: sp
                   ∧ shape lbs = [k; 576; 736]) batches).
Proof.
  intros Hpos. split.
  { intros -> Hempty. unfold DataLoader_iter, CustomNYUDataset.__len__.
    py_run. by rewrite Hempty. }
  intros Hnonempty Hall.
  set (sampler := if shuffle then shuffled
                  else py_range (length (CustomNYUDataset.dataset s))) in *.
  assert (DataLoader_iter resample float32 shuffle batch_size shuffled s
          = mapM (fetch resample float32)
                 (batch_sampler batch_size sampler []) s) as ->.
  { change (DataLoader_iter resample float32 shuffle batch_size shuffled s)
      with ((if shuffle
                && bool_decide (length (CustomNYUDataset.dataset s) = 0)
             then lift (Raise ValueError)
             else if bool_decide (batch_size = 0)
                  then lift (Raise ValueError)
                  else mapM (fetch resample float32)
                            (batch_sampler batch_size sampler [])) s).
    replace (shuffle && bool_decide (length (CustomNYUDataset.dataset s) = 0))
      with false.
    - rewrite (bool_decide_eq_false_2 (batch_size = 0)) by lia. done.
    - destruct shuffle; [|done]. simpl. symmetry.
      apply bool_decide_eq_false. intros Hlen.
      apply Hnonempty; [done|]. by apply length_zero_iff_nil. }
  pose proof (batch_sampler_concat batch_size sampler [] Hpos) as Hconcat.
  pose proof (batch_sampler_sizes batch_size sampler [] Hpos) as Hsizes.
  pose proof (batch_sampler_count batch_size sampler [] Hpos) as Hcount.
  simpl in Hconcat, Hsizes, Hcount.
  specialize (Hconcat ltac:(lia)). specialize (Hsizes ltac:(lia)).
  specialize (Hcount ltac:(lia)).
  assert (Forall (λ ib, ∃ b,
            fetch resample float32 ib s = (Ok b, s)
            ∧ ∃ k pvs lbs,
                0 < k ≤ batch_size
                ∧ b = {[ "pixel_values" := pvs; "labels" := lbs ]}
                ∧ shape pvs = k :: sp
                ∧ shape lbs = [k; 576; 736])
            (batch_sampler batch_size sampler [])) as Heach.
  { apply Forall_forall. intros ib Hib.
    pose proof (proj1 (Forall_forall _ _) Hsizes ib Hib) as Hsize.
    destruct (fetch_batch_shapes s ib sp) as (pvs & lbs & Hf & Hp & Hl).
    - destruct ib; [simpl in Hsize; lia|done].
    - apply Forall_forall. intros idx Hidx.
      apply (proj1 (Forall_forall _ _) Hall).
      rewrite <- Hconcat. apply list_elem_of_In, in_concat.
      exists ib. split; by apply list_elem_of_In.
    - eexists. split; [exact Hf|]. by exists (length ib), pvs, lbs. }
  clear Hconcat Hsizes.
  revert Hcount Heach. generalize (batch_sampler batch_size sampler []).
  intros ibs Hcount Heach.
  assert (∃ batches,
            Forall2 (λ ib b, fetch resample float32 ib s = (Ok b, s)) ibs batches
            ∧ Forall (λ b, ∃ k pvs lbs,
                        0 < k ≤ batch_size
                        ∧ b = {[ "pixel_values" := pvs; "labels" := lbs ]}
                        ∧ shape pvs = k :: sp
                        ∧ shape lbs = [k; 576; 736]) batches)
    as (batches & Hfetch & Hshapes).
  { clear Hcount. induction Heach as [|ib ibs (b & Hb & Hk) _ (bs & IH1 & IH2)].
    - by exists [].
    - exists (b :: bs). split; by constructor. }
  exists batches. split_and!; [by apply mapM_Py_Forall2| |done].
  by rewrite <- (Forall2_length _ _ _ Hfetch).
Qed.
End DataLoader_facts.

(** ** The inspection cell *)

Section inspection_facts.
Context {Px D : Type}.
Implicit Types (ds : list (Row Px D)).

Lemma add_image_sizes_range ds (k n : nat) (acc : gset (nat * nat)) :
  k + n ≤ length ds →
  add_image_sizes ds (Z.of_nat <$> seq k n) acc
  = Ok (acc ∪ list_to_set ((λ row, Image.size (to_PIL (image row)))
                             <$> take n (drop k ds))).
Proof.
  revert k acc. induction n as [|n IH]; intros k acc Hlen.
  { simpl. f_equal. by rewrite union_empty_r_L. }
  destruct (py_index_nonneg ds (Z.of_nat k)) as (row & Hrow & Hpy); [lia|].
  rewrite Nat2Z.id in Hrow.
  simpl. rewrite Hpy. py_run. rewrite IH by lia.
  rewrite (drop_S _ _ _ Hrow). simpl. f_equal.
  by rewrite (assoc_L (∪)).
Qed.

(** X11: the inspection cell.  On an empty dataset it ends with
    IndexError at [train_data_slice[0]].  Otherwise it never indexes out
    of range; it reports the size of the first image and the set of the
    sizes of the images number 0 to 99 (of all images when there are
    fewer than 100), the first size among them; rows from number 100 on
    are never looked at. *)
Theorem inspect_image_dimensions_first_hundred ds :
  (ds = [] → inspect_image_dimensions ds = Raise IndexError)
  ∧ (∀ first, ds !! 0 = Some first →
       ∃ image_sizes,
         inspect_image_dimensions ds
         = Ok (Image.size (to_PIL (image first)), image_sizes)
         ∧ Image.size (to_PIL (image first)) ∈ image_sizes
         ∧ ∀ wh, wh ∈ image_sizes
                 ↔ ∃ i row, i < 100 ∧ ds !! i = Some row
                            ∧ wh = Image.size (to_PIL (image row)))
  ∧ (∀ ds', take 100 ds' = take 100 ds →
            inspect_image_dimensions ds' = inspect_image_dimensions ds).
Proof.
  assert (∀ ds first, ds !! 0 = Some first →
            inspect_image_dimensions ds
            = Ok (Image.size (to_PIL (image first)),
                  list_to_set ((λ row, Image.size (to_PIL (image row)))
                                 <$> take 100 ds))) as Hclosed.
  { intros l first Hfirst. unfold inspect_image_dimensions.
    destruct (py_index_nonneg l 0) as (row & Hrow & Hpy).
    { apply lookup_lt_Some in Hfirst. lia. }
    change (Z.to_nat 0) with 0 in Hrow.
    assert (row = first) as -> by congruence.
    rewrite Hpy. py_run. unfold py_range.
    rewrite add_image_sizes_range by lia.
    py_run. rewrite drop_0, union_empty_l_L. do 3 f_equal.
    destruct (decide (length l ≤ 100)).
    - rewrite Nat.min_l by done. by rewrite !take_ge by lia.
    - by rewrite Nat.min_r by lia. }
  split_and!.
  - by intros ->.
  - intros first Hfirst. eexists. split; [by apply Hclosed|].
    assert (∀ wh, wh ∈ (list_to_set ((λ row, Image.size (to_PIL (image row)))
                                       <$> take 100 ds) : gset (nat * nat))
                  ↔ ∃ i row, i < 100 ∧ ds !! i = Some row
                             ∧ wh = Image.size (to_PIL (image row))) as Hmem.
    { intros wh. rewrite elem_of_list_to_set, list_elem_of_fmap. split.
      - intros (row & -> & Hrow). apply list_elem_of_lookup in Hrow as [i Hi].
        apply lookup_take_Some in Hi as [Hi Hlt]. by exists i, row.
      - intros (i & row & Hlt & Hi & ->). exists row. split; [done|].
        apply list_elem_of_lookup. exists i. by apply lookup_take_Some. }
    split; [|done]. apply Hmem. exists 0, first. split_and!; [lia|done..].
  - intros ds' Htake. destruct ds as [|first ds0], ds' as [|first' ds0'];
      try done.
    assert (first' = first) as -> by (by injection Htake).
    rewrite (Hclosed (first :: ds0') first), (Hclosed (first :: ds0) first)
      by done.
    by rewrite Htake.
Qed.
End inspection_facts.

(** ** More on [DPTLightningModule] *)

Section DPTLightningModule_more.
Context {F : Type} {F32 : Float32 F}.
Context (checkpoint :
  string → Result (DPTForDepthEstimation * gmap positive (Tensor F))).
Context (predicted_depth :
  DPTForDepthEstimation → gmap positive (Tensor F) → Tensor F → Result (Tensor F)).
Context (broadcast : Tensor F → Tensor F → Result F).
Implicit Types (s : DPTLightningModule.self F) (p : positive).
Implicit Types (batch : gmap string (Tensor F)).

(** X12: the constructor writes flags and nothing else.  It asks the hub
    for the one checkpoint "facebook/dpt-dinov2-small-kitti" and fails
    with the hub's exception when that fails; otherwise the wrapper holds
    the loaded model, an empty log, and a parameter store with the keys
    of the checkpoint, every weight as loaded and no gradient; a stored
    tensor that no submodule of the model refers to keeps the flag it was
    loaded with. *)
Theorem init_writes_flags_only :
  (∀ e, checkpoint "facebook/dpt-dinov2-small-kitti" = Raise e →
        DPTLightningModule.__init__ checkpoint = Raise e)
  ∧ ∀ m weights,
      checkpoint "facebook/dpt-dinov2-small-kitti" = Ok (m, weights) →
      ∃ s,
        DPTLightningModule.__init__ checkpoint = Ok s
        ∧ DPTLightningModule.model s = m
        ∧ DPTLightningModule.logged s = []
        ∧ dom (DPTLightningModule.store s) = dom weights
        ∧ ∀ p prm,
            DPTLightningModule.store s !! p = Some prm →
            weights !! p = Some (param_data prm)
            ∧ grad prm = None
            ∧ (p ∉ parameters m → requires_grad prm = true).
Proof.
  split.
  - intros e He.
    unfold DPTLightningModule.__init__, DPTLightningModule.from_pretrained.
    by rewrite He.
  - intros m weights Hload.
    assert (∃ s, DPTLightningModule.__init__ checkpoint = Ok s) as [s Hs].
    { unfold DPTLightningModule.__init__, DPTLightningModule.from_pretrained.
      rewrite Hload. by eexists. }
    destruct (init_store checkpoint s Hs) as (weights' & Hload' & Hlog & Hstore).
    rewrite Hload in Hload'. injection Hload' as Hm <-.
    exists s. split_and!; [done..| |].
    + apply set_eq. intros p. rewrite !elem_of_dom, Hstore.
      by rewrite fmap_is_Some.
    + intros p prm. rewrite Hstore.
      destruct (weights !! p) as [w|]; [|done]. intros [= <-]. simpl.
      split_and!; [done..|]. intros Hnot.
      rewrite Hm in Hnot.
      rewrite (bool_decide_eq_false_2 (p ∈ parameters _)) by done.
      by rewrite orb_true_r.
Qed.

(** X13: how a step fails.  A batch without 'pixel_values' ends
    [common_step], [training_step] and [validation_step] with KeyError
    'pixel_values'; one with 'pixel_values' but without 'labels' with
    KeyError 'labels', whatever the network would do; an exception of the
    network, and an exception of [mse_loss] on shapes that differ, end
    them with that exception.  In every case the wrapper is left as it
    was and nothing is logged. *)
Theorem steps_fail_without_logging batch (batch_idx : nat) s :
  (∀ e,
     (batch !! "pixel_values" = None ∧ e = KeyError "pixel_values")
     ∨ (is_Some (batch !! "pixel_values") ∧ batch !! "labels" = None
        ∧ e = KeyError "labels")
     ∨ (∃ pv lb, batch !! "pixel_values" = Some pv
                 ∧ batch !! "labels" = Some lb
                 ∧ (DPTLightningModule.forward predicted_depth pv s).1
                   = Raise e)
     ∨ (∃ pv lb preds,
          batch !! "pixel_values" = Some pv
          ∧ batch !! "labels" = Some lb
          ∧ (DPTLightningModule.forward predicted_depth pv s).1 = Ok preds
          ∧ shape preds ≠ shape lb
          ∧ broadcast preds lb = Raise e) →
     DPTLightningModule.common_step predicted_depth broadcast batch batch_idx s
     = (Raise e, s)
     ∧ DPTLightningModule.training_step predicted_depth broadcast
         batch batch_idx s = (Raise e, s)
     ∧ DPTLightningModule.validation_step predicted_depth broadcast
         batch batch_idx s = (Raise e, s))
  ∧ ∀ e s',
      DPTLightningModule.training_step predicted_depth broadcast
        batch batch_idx s = (Raise e, s')
      ∨ DPTLightningModule.validation_step predicted_depth broadcast
          batch batch_idx s = (Raise e, s') →
      s' = s.
Proof.
  rewrite common_step_run, training_step_run, validation_step_run. split.
  - intros e Hcase.
    assert (DPTLightningModule.common_step_result predicted_depth broadcast
              s batch = Raise e) as ->; [|done].
    unfold DPTLightningModule.common_step_result, dict_getitem.
    destruct Hcase as [[Hpv ->]|[([pv Hpv] & Hlb & ->)|
      [(pv & lb & Hpv & Hlb & Hfw)|(pv & lb & preds & Hpv & Hlb & Hfw & Hsh & Hb)]]].
    + by rewrite Hpv.
    + by rewrite Hpv, Hlb.
    + rewrite forward_run in Hfw. simpl in Hfw.
      rewrite Hpv, Hlb. py_run. by rewrite Hfw.
    + rewrite forward_run in Hfw. simpl in Hfw.
      rewrite Hpv, Hlb. py_run. rewrite Hfw. py_run.
      unfold torch.nn.functional.mse_loss.
      by rewrite bool_decide_eq_false_2.
  - intros e s'.
    destruct (DPTLightningModule.common_step_result _ _ _ _);
      intros [[= ]|[= ]]; done.
Qed.

(** X14: the optimizer's parameter list.  [configure_optimizers] never
    changes the wrapper.  It ends with ValueError exactly when the model
    has no parameter at all; otherwise the optimizer it returns starts
    without state and lists every parameter of the embeddings, of every
    encoder layer, of the final layer norm, of the neck and of the head,
    each once even when submodules share it. *)
Theorem configure_optimizers_parameter_list s :
  (DPTLightningModule.configure_optimizers s).2 = s
  ∧ ((DPTLightningModule.configure_optimizers s).1 = Raise ValueError
     ↔ parameters (DPTLightningModule.model s) = [])
  ∧ (parameters (DPTLightningModule.model s) ≠ [] →
     is_Ok (DPTLightningModule.configure_optimizers s).1)
  ∧ ∀ opt : torch.optim.Optimizer F,
      (DPTLightningModule.configure_optimizers s).1 = Ok opt →
      NoDup (torch.optim.param_groups opt)
      ∧ torch.optim.state opt = ∅
      ∧ ∀ p, p ∈ torch.optim.param_groups opt
             ↔ p ∈ embeddings (backbone (DPTLightningModule.model s))
               ∨ (∃ lay, lay ∈ layer (encoder (backbone
                                 (DPTLightningModule.model s)))
                         ∧ p ∈ lay)
               ∨ p ∈ layernorm (backbone (DPTLightningModule.model s))
               ∨ p ∈ neck (DPTLightningModule.model s)
               ∨ p ∈ head (DPTLightningModule.model s).
Proof.
  rewrite configure_optimizers_run. simpl. unfold torch.optim.Adam.
  assert (∀ p, p ∈ parameters (DPTLightningModule.model s)
               ↔ p ∈ embeddings (backbone (DPTLightningModule.model s))
                 ∨ (∃ lay, lay ∈ layer (encoder (backbone
                                   (DPTLightningModule.model s)))
                           ∧ p ∈ lay)
                 ∨ p ∈ layernorm (backbone (DPTLightningModule.model s))
                 ∨ p ∈ neck (DPTLightningModule.model s)
                 ∨ p ∈ head (DPTLightningModule.model s)) as Hmem.
  { intros p. unfold parameters.
    rewrite elem_of_yield_unseen_nil, !elem_of_app, list_elem_of_join.
    split; [intros [?|[(lay & ? & ?)|[?|[?|?]]]]|
            intros [?|[(lay & ? & ?)|[?|[?|?]]]]]; eauto 10. }
  assert (NoDup (parameters (DPTLightningModule.model s))) as Hnodup
    by apply NoDup_yield_unseen.
  destruct (parameters (DPTLightningModule.model s)) as [|q qs] eqn:Hps.
  - split_and!; [done|done|done|]. intros opt [=].
  - split_and!; [done| |by eexists|].
    + split; [done|done].
    + intros opt [= <-]. simpl. split_and!; [done..|]. intros p.
      by rewrite <- Hmem.
Qed.
End DPTLightningModule_more.

(** ** The properties above on the sample collaborators *)

Lemma sample_getitem (s : CustomNYUDataset.self Z Z Z) (idx : Z) :
  CustomNYUDataset.processor s = Sample.processor →
  py_index (CustomNYUDataset.dataset s) idx = Ok Sample.row →
  ∃ ex pv,
    (CustomNYUDataset.__getitem__ Sample.resample id idx s).1 = Ok ex
    ∧ ex !! "pixel_values" = Some pv ∧ shape pv = [3; 2; 2].
Proof.
  intros Hproc Hpy.
  assert (is_Ok (CustomNYUDataset.getitem_result Sample.resample id s idx))
    as [ex Hex].
  { unfold CustomNYUDataset.getitem_result. rewrite Hpy, Hproc.
    unfold Resize, Image.resize, Sample.resample. by eexists. }
  exists ex. rewrite getitem_run. simpl.
  destruct (getitem_result_Ok _ _ _ _ _ Hex)
    as (item & processed & pv & px & _ & Hp & Hpv & _ & ->).
  rewrite Hproc in Hp. injection Hp as <-.
  apply lookup_singleton_Some in Hpv as [_ <-].
  eexists. split; [done|]. split; [by simplify_map_eq|done].
Qed.

Lemma sample_dataset3_getitem :
  Forall (λ idx, ∃ ex pv,
            (CustomNYUDataset.__getitem__ Sample.resample id idx
               Sample.dataset3).1 = Ok ex
            ∧ ex !! "pixel_values" = Some pv ∧ shape pv = [3; 2; 2])
         (py_range 3).
Proof. repeat constructor; by apply sample_getitem. Qed.

Lemma pixel_values_of_sample_row :
  ∃ ex out,
    (CustomNYUDataset.__getitem__ Sample.resample id 0 Sample.dataset1).1
    = Ok ex
    ∧ ex !! "pixel_values" = Some out
    ∧ shape out = [3; 2; 2].
Proof.
  destruct (sample_getitem Sample.dataset1 0 eq_refl eq_refl)
    as (ex & pv0 & Hex & _ & _).
  destruct (getitem_pixel_values_squeezed Sample.resample id
              Sample.dataset1 0 ex Hex)
    as (item & processed & pv & out & _ & Hproc & Hpv & Hout & _ & _ & _
        & Hshape & _).
  exists ex, out. split; [exact Hex|]. split; [exact Hout|].
  injection Hproc as <-. apply lookup_singleton_Some in Hpv as [_ <-].
  apply (Hshape 3 2 2); [reflexivity|lia..].
Defined.

Lemma same_row_same_fields :
  ∃ ex ex',
    (CustomNYUDataset.__getitem__ Sample.resample id 0 Sample.dataset1).1
    = Ok ex
    ∧ (CustomNYUDataset.__getitem__ Sample.resample id (-1) Sample.dataset3).1
      = Ok ex'
    ∧ ex !! "labels" = ex' !! "labels"
    ∧ ex !! "pixel_values" = ex' !! "pixel_values".
Proof.
  destruct (sample_getitem Sample.dataset1 0 eq_refl eq_refl)
    as (ex & _ & Hex & _).
  destruct (sample_getitem Sample.dataset3 (-1) eq_refl eq_refl)
    as (ex' & _ & Hex' & _).
  destruct (getitem_fields_independent Sample.resample id
              Sample.dataset1 Sample.dataset3 0 (-1) Sample.row Sample.row
              ex ex' eq_refl eq_refl Hex Hex') as [Hl Hp].
  exists ex, ex'. split; [exact Hex|]. split; [exact Hex'|].
  split; [exact (Hl eq_refl)|exact (Hp eq_refl eq_refl)].
Defined.

Lemma collate_fn_of_two_examples_only_if :
  ∃ b, collate_fn [Sample.example 1; Sample.example 2] = Ok b
       ∧ [Sample.example 1; Sample.example 2] ≠ [].
Proof.
  eexists. split; [reflexivity|].
  exact (proj1 (collate_fn_returns_only_if
                  [Sample.example 1; Sample.example 2] _ eq_refl)).
Defined.

Lemma fetch_three_rows :
  py_range 3 ≠ []
  ∧ ∃ pvs lbs,
      fetch Sample.resample id (py_range 3) Sample.dataset3
      = (Ok {[ "pixel_values" := pvs; "labels" := lbs ]}, Sample.dataset3)
      ∧ shape pvs = [3; 3; 2; 2]
      ∧ shape lbs = [3; 576; 736].
Proof.
  split; [discriminate|].
  exact (fetch_batch_shapes Sample.resample id Sample.dataset3 (py_range 3)
           [3; 2; 2] ltac:(discriminate) sample_dataset3_getitem).
Defined.

Lemma fetch_index_out_of_range :
  fetch Sample.resample id [0; 5; 0]%Z Sample.dataset1
  = (Raise IndexError, Sample.dataset1).
Proof.
  assert (Forall (λ idx,
            is_Ok (CustomNYUDataset.__getitem__ Sample.resample id idx
                     Sample.dataset1).1) [0%Z]) as Hgood.
  { constructor; [|constructor].
    destruct (sample_getitem Sample.dataset1 0 eq_refl eq_refl)
      as (ex & _ & Hex & _).
    exists ex. exact Hex. }
  exact (proj1 (fetch_first_failure Sample.resample id Sample.dataset1
                  [0%Z] 5%Z [0%Z] IndexError Hgood eq_refl)).
Defined.

Lemma batches_of_five_indices :
  0 < batch_size
  ∧ batch_sampler batch_size (py_range 5) [] = [[0; 1]; [2; 3]; [4]]%Z
  ∧ length (batch_sampler batch_size (py_range 5) [])
    = (length (py_range 5) + batch_size - 1) / batch_size.
Proof.
  assert (0 < batch_size) as Hpos by (unfold batch_size; lia).
  split; [exact Hpos|]. split; [reflexivity|].
  exact (proj2 (proj2 (proj2 (batch_sampler_partitions batch_size
                                (py_range 5) Hpos)))).
Defined.

(** The validation loader over three rows gives two batches; a
    shuffling loader over no rows is refused. *)
Lemma val_dataloader_over_three_rows :
  0 < eval_batch_size
  ∧ (∃ batches,
       DataLoader_iter Sample.resample id false eval_batch_size []
         (val_dataset [Sample.row; Sample.row; Sample.row] Sample.processor)
       = (Ok batches,
          val_dataset [Sample.row; Sample.row; Sample.row] Sample.processor)
       ∧ length batches = 2)
  ∧ DataLoader_iter Sample.resample id true eval_batch_size []
      (train_dataset [] Sample.processor)
    = (Raise ValueError, train_dataset [] Sample.processor).
Proof.
  assert (0 < eval_batch_size) as Hpos by (unfold eval_batch_size, batch_size; lia).
  split; [exact Hpos|]. split.
  - destruct (DataLoader_pass_shapes Sample.resample id false eval_batch_size
                [] (val_dataset [Sample.row; Sample.row; Sample.row]
                      Sample.processor)
                [3; 2; 2] Hpos) as [_ Hpass].
    destruct Hpass as (batches & Hrun & Hlen & _);
      [discriminate|exact sample_dataset3_getitem|].
    exists batches. split; [exact Hrun|exact Hlen].
  - exact (proj1 (DataLoader_pass_shapes Sample.resample id true
                    eval_batch_size [] (train_dataset [] Sample.processor)
                    [3; 2; 2] Hpos) eq_refl eq_refl).
Defined.

(** On a row of PIL images the processor's exception comes before that
    of the resampling filter. *)
Example processor_failure_comes_first :
  (CustomNYUDataset.__getitem__ Sample.failing_resample id 0
     Sample.dataset_failing).1 = Raise ValueError.
Proof. reflexivity. Qed.
